(** * Football data processor: ingestion and consumption lambdas

    A shallow embedding of
      - [lambdas/event_consumer/app.py]  (the batch consumer), and
      - [lambdas/event_ingest/app.py]    (the producer and topic provisioner),
    with the properties the specification states about them.

    Python dictionaries that are only read and updated by key are finite
    maps ([gmap string json]); the partition mapping of a consumer
    invocation, which the handler iterates, keeps its order.  Library
    calls (base64, json, datetime, the DynamoDB and Kafka clients) are not
    code of this repository: they are the fields of [Runtime], [DynamoDB]
    and [KafkaEnv], and every general theorem holds for all their
    behaviours.  Concrete instances, used for the scenarios of the
    specification, are given in [Module Sample]. *)

From stdpp Require Import gmap strings list fin_maps pretty.
From Stdlib Require Import ZArith SpecFloat Ascii.

#[local] Set Warnings "-register-all".
#[local] Open Scope Z_scope.

(** ** JSON values, as [json.loads] builds them *)

Inductive json :=
  | JNull
  | JBool (b : bool)
  | JInt (z : Z)
  | JFloat (f : spec_float)
  | JStr (s : string)
  | JArr (l : list json)
  | JObj (m : gmap string json).

(** A decoded event, an item of the table and a raw log record are all
    Python dicts with string keys. *)
Abbreviation pydict := (gmap string json).

(** [bool(v)] for a value that came out of [json.loads]. *)
Definition truthy (v : json) : bool :=
  match v with
  | JNull => false
  | JBool b => b
  | JInt z => negb (z =? 0)
  | JFloat (S754_zero _) => false
  | JFloat _ => true
  | JStr s => negb (String.eqb s EmptyString)
  | JArr l => match l with [] => false | _ => true end
  | JObj m => negb (bool_decide (m = ∅))
  end.

(** [d.get(k, default)] *)
Definition dict_get (d : pydict) (k : string) (default : json) : json :=
  match d !! k with
  | Some v => v
  | None => default
  end.

(** [k in d] *)
Definition dict_has (d : pydict) (k : string) : bool :=
  bool_decide (is_Some (d !! k)).

(** ** Exceptions and results *)

Inductive exn :=
  | Exception (msg : string)
  | ValueError (msg : string)
  | TypeError
  | AttributeError
  | JSONDecodeError
  | TopicAlreadyExistsError
  | KafkaError (msg : string)
  | ClientError (msg : string).

Inductive result (A : Type) :=
  | Ok (a : A)
  | Raise (e : exn).
Arguments Ok {A} a.
Arguments Raise {A} e.

Definition is_ok {A} (r : result A) : bool :=
  match r with Ok _ => true | Raise _ => false end.

(** A computation over a mutable world [S] that may raise. The world is
    kept when an exception is raised: what was written stays written. *)
Definition M (S A : Type) : Type := S → result A * S.

Definition ret {S A} (a : A) : M S A := λ s, (Ok a, s).
Definition raise {S A} (e : exn) : M S A := λ s, (Raise e, s).
Definition bind {S A B} (m : M S A) (k : A → M S B) : M S B :=
  λ s, match m s with
       | (Ok a, s') => k a s'
       | (Raise e, s') => (Raise e, s')
       end.

(** [try: body except Exception as e: handler e] *)
Definition try_except {S A} (body : M S A) (handler : exn → M S A) : M S A :=
  λ s, match body s with
       | (Ok a, s') => (Ok a, s')
       | (Raise e, s') => handler e s'
       end.

(** [try: body finally: cleanup] *)
Definition try_finally {S A} (body : M S A) (cleanup : M S unit) : M S A :=
  λ s, match body s with
       | (r, s') =>
           match cleanup s' with
           | (Ok _, s'') => (r, s'')
           | (Raise e, s'') => (Raise e, s'')
           end
       end.

Declare Scope py_scope.
Delimit Scope py_scope with py.
Notation "x <- c1 ;; c2" := (bind c1 (λ x, c2))
  (at level 100, c1 at next level, right associativity) : py_scope.
Notation "c1 ;; c2" := (bind c1 (λ _, c2))
  (at level 100, right associativity) : py_scope.

(** ** The Python runtime *)

(** A [datetime] as [datetime.fromisoformat] returns it; [tzoffset] is the
    UTC offset in seconds when the string carries one. *)
Record datetime := {
  year : Z; month : Z; day : Z;
  hour : Z; minute : Z; second : Z; microsecond : Z;
  tzoffset : option Z
}.

(** Library functions the lambdas call. [None] stands for the call
    raising. Bytes and text are both [string]s (sequences of bytes). *)
Class Runtime := {
  (** [base64.b64decode] *)
  b64decode : string → option string;
  (** [bytes.decode('utf-8')] *)
  utf8_decode : string → option string;
  (** [json.loads] *)
  json_loads : string → option json;
  (** [datetime.fromisoformat] *)
  fromisoformat : string → option datetime;
  (** [str(v)] for a value that is not a [str] *)
  py_repr : json → string;
  (** [str(e)] for an exception *)
  exn_str : exn → string;
}.

(** [str.replace('Z', '+00:00')]: every occurrence is replaced. *)
Fixpoint replace_Z (s : string) : string :=
  match s with
  | EmptyString => EmptyString
  | String c rest =>
      if Ascii.eqb c "Z"%char then "+00:00" +:+ replace_Z rest
      else String c (replace_Z rest)
  end.

(** What an f-string puts for [{v}]. *)
Definition format_value `{Runtime} (v : json) : string :=
  match v with
  | JStr s => s
  | _ => py_repr v
  end.

(** An [int] in an f-string. *)
Definition format_int (z : Z) : string := pretty z.

(** What a handler returns to the platform: [a dict with statusCode and body]. *)
Record response := {
  statusCode : Z;
  body : json;
}.

(** * The batch consumer: [lambdas/event_consumer/app.py] *)

Module Consumer.

Section consumer.
Context `{Runtime}.

(** [derive_season(timestamp_str)]. The argument is whatever
    [event.get('timestamp', '')] gave: on a value that is not a [str],
    [.replace] raises [AttributeError], which the [except] turns into
    ["unknown"] like a [ValueError] of the parser. *)
Definition derive_season (timestamp_str : json) : string :=
  match timestamp_str with
  | JStr s =>
      match fromisoformat (replace_Z s) with
      | Some timestamp =>
          let year := year timestamp in
          if month timestamp <? 8
          then format_int (year - 1) +:+ "/" +:+ format_int year
          else format_int year +:+ "/" +:+ format_int (year + 1)
      | None => "unknown"
      end
  | _ => "unknown"
  end.

(** Lines 52-53 of [process_record]: the base64 text of the record is
    decoded and parsed. *)
Definition decode_value (value : json) : option json :=
  match value with
  | JStr s =>
      value_bytes ← b64decode s;
      text ← utf8_decode value_bytes;
      json_loads text
  | _ => None
  end.

(** Lines 58-74 of [process_record]: the enrichment of a decoded
    event. *)
Definition enrich (event : pydict) : pydict :=
  let event_type := dict_get event "event_type" (JStr "unknown") in
  let timestamp := dict_get event "timestamp" (JStr EmptyString) in
  let season := derive_season timestamp in
  let event := <["season" := JStr season]> event in
  let event :=
    if dict_has event "timestamp" && negb (dict_has event "event_timestamp")
    then <["event_timestamp" := dict_get event "timestamp" JNull]> event
    else event in
  let event_timestamp := dict_get event "event_timestamp" (JStr EmptyString) in
  <["event_type_timestamp" :=
      JStr (format_value event_type +:+ "#" +:+ format_value event_timestamp)]>
    event.

(** [process_record(record)]: [None] both when the record has no
    ['value'] and when anything in the [try] raises; a decoded value that
    is not a dict has no [.get] and raises. *)
Definition process_record (record : pydict) : option pydict :=
  match record !! "value" with
  | Some value =>
      match decode_value value with
      | Some (JObj event) => Some (enrich event)
      | Some _ => None
      | None => None
      end
  | None => None
  end.

End consumer.

(** ** The table and the batch writer *)

(** The table of the store: primary key [match_id] (partition) and
    [event_timestamp] (sort), as the unit tests create it. *)
Abbreviation table := (gmap (string * string) pydict).

(** One physical [BatchWriteItem] request of the store's client, on at most
    25 items, together with boto3's re-sending of what the store reports as
    unprocessed. It may change the table and it may raise. *)
Class DynamoDB := {
  batch_write_item : list pydict → M table unit;
}.

(** [flush_amount] of boto3's [batch_writer]. *)
Definition flush_amount : nat := 25.

(** boto3's [BatchWriter]: the items not yet sent, and the table. *)
Record writer := {
  items_buffer : list pydict;
  tbl : table;
}.

Section batch_writer.
Context `{DynamoDB}.

(** [BatchWriter._flush]: the buffer is cut before the call, so the items
    of a failed call are gone from it. *)
Definition flush : M writer unit := λ w,
  let items_to_send := take flush_amount (items_buffer w) in
  let rest := drop flush_amount (items_buffer w) in
  match batch_write_item items_to_send (tbl w) with
  | (r, t) => (r, {| items_buffer := rest; tbl := t |})
  end.

(** [BatchWriter.put_item]: buffer the item, flush a full buffer. *)
Definition put_item (item : pydict) : M writer unit := λ w,
  let w := {| items_buffer := items_buffer w ++ [item]; tbl := tbl w |} in
  if (flush_amount <=? length (items_buffer w))%nat then flush w
  else (Ok (), w).

(** [for item in items: batch.put_item(Item=item)] *)
Fixpoint put_items (items : list pydict) : M writer unit :=
  match items with
  | [] => ret ()
  | item :: items => (put_item item ;; put_items items)%py
  end.

(** [while self._items_buffer: self._flush()], with the number of
    iterations left; [writer_exit] starts it with enough of them. *)
Fixpoint flush_while (fuel : nat) : M writer unit := λ w,
  match items_buffer w, fuel with
  | [], _ => (Ok (), w)
  | _ :: _, O => (Ok (), w)
  | _ :: _, S fuel => (flush ;; flush_while fuel)%py w
  end.

(** [BatchWriter.__exit__] *)
Definition writer_exit : M writer unit := λ w,
  flush_while (length (items_buffer w)) w.

(** [with table.batch_writer() as batch: body]. [__exit__] runs on both
    ways out of the body and does not swallow its exception. *)
Definition with_batch_writer (body : M writer unit) : M table unit := λ t,
  match try_finally body writer_exit {| items_buffer := []; tbl := t |} with
  | (r, w) => (r, tbl w)
  end.

(** [batch_write_to_dynamodb(items)]: the success count and the table
    left behind. The handle that [init_dynamodb] gives is the table. *)
Definition batch_write_to_dynamodb (items : list pydict) (t : table)
  : nat * table :=
  match items with
  | [] => (0%nat, t)
  | _ :: _ =>
      match with_batch_writer (put_items items) t with
      | (Ok _, t') => (length items, t')
      | (Raise _, t') => (0%nat, t')
      end
  end.

End batch_writer.

(** ** The handler *)

(** The invocation event of the MSK event source mapping: ['records'], when
    present, maps each partition to its records, in the order in which
    [.items()] yields them. *)
Record kafka_event := {
  records : option (list (string * list pydict));
}.

Section handler.
Context `{Runtime} `{DynamoDB}.

(** [for record in records: ...] of one partition. [if item:] is the
    truth value of what [process_record] returned. *)
Definition process_partition (processed_items : list pydict)
    (recs : list pydict) : list pydict :=
  foldl (λ processed_items record,
           match process_record record with
           | Some item =>
               if truthy (JObj item) then processed_items ++ [item]
               else processed_items
           | None => processed_items
           end) processed_items recs.

(** [for partition_key, records in event['records'].items(): ...] *)
Definition process_partitions (parts : list (string * list pydict))
  : nat * list pydict :=
  foldl (λ '(total_records, processed_items) '(_, recs),
           ((total_records + length recs)%nat,
            process_partition processed_items recs))
        (0%nat, []) parts.

Definition failure_message (success_count total_records : nat) : string :=
  "Processed " +:+ pretty success_count +:+ " out of "
    +:+ pretty total_records +:+ " records successfully".

Definition success_body (success_count : nat) : json :=
  JObj {[ "message" :=
    JStr (pretty success_count +:+ " records processed successfully") ]}.

(** [lambda_handler(event, context)] of the consumer. *)
Definition lambda_handler (event : kafka_event) : M table response := λ t,
  let '(total_records, success_count, t) :=
    match records event with
    | Some parts =>
        let '(total_records, processed_items) := process_partitions parts in
        match processed_items with
        | _ :: _ =>
            let '(success_count, t) :=
              batch_write_to_dynamodb processed_items t in
            (total_records, success_count, t)
        | [] => (total_records, 0%nat, t)
        end
    | None => (0%nat, 0%nat, t)
    end in
  if bool_decide (success_count ≠ total_records)
  then (Raise (Exception (failure_message success_count total_records)), t)
  else (Ok {| statusCode := 200; body := success_body success_count |}, t).

End handler.

End Consumer.

(** * The producer: [lambdas/event_ingest/app.py] *)

Module Ingest.

(** The log cluster: its topics, the records published so far (topic, key,
    value), and the number of admin clients that are open. *)
Record cluster := {
  topics : list string;
  published : list (string * json * pydict);
  open_admin_clients : nat;
}.

(** What the platform and the Kafka and AWS clients answer during one
    invocation. *)
Class KafkaEnv := {
  (** the environment variable [MSK_TOPIC] *)
  MSK_TOPIC : string;
  (** [jsonschema.validate(instance, EVENT_SCHEMA)] did not raise;
      [schema.json] is not part of the sources *)
  schema_valid : json → bool;
  (** [kafka_client.get_bootstrap_brokers(ClusterArn=...)] *)
  get_bootstrap_brokers : result pydict;
  (** a failure of [KafkaAdminClient(...)]: token or connection *)
  admin_connect_fault : option exn;
  (** [admin_client.list_topics()], from the topics of the cluster: the
      listing is a snapshot, which may be older than the state that the
      creation request meets *)
  list_topics : list string → result (list string);
  (** a failure of [create_topics] that is not about existence *)
  create_fault : option exn;
  (** a failure of [KafkaProducer(...)] *)
  producer_connect_fault : option exn;
  (** [producer.send(...)] followed by [future.get(timeout=10)] *)
  send_and_wait : string → json → pydict → M cluster unit;
  (** [str(uuid.uuid4())] *)
  uuid4 : string;
}.

Section ingest.
Context `{Runtime} `{KafkaEnv}.

Definition with_topics (c : cluster) (ts : list string) : cluster :=
  {| topics := ts; published := published c;
     open_admin_clients := open_admin_clients c |}.

Definition with_clients (c : cluster) (n : nat) : cluster :=
  {| topics := topics c; published := published c;
     open_admin_clients := n |}.

(** [KafkaAdminClient(...)] *)
Definition KafkaAdminClient (bootstrap_servers : json) : M cluster unit :=
  λ c, match admin_connect_fault with
       | Some e => (Raise e, c)
       | None => (Ok (), with_clients c (S (open_admin_clients c)))
       end.

(** [admin_client.close()] *)
Definition admin_close : M cluster unit :=
  λ c, (Ok (), with_clients c (pred (open_admin_clients c))).

(** [admin_client.list_topics()] *)
Definition admin_list_topics : M cluster (list string) :=
  λ c, (list_topics (topics c), c).

(** [admin_client.create_topics([NewTopic(name=...)])]: the broker
    refuses a name that exists with [TopicAlreadyExistsError]. *)
Definition admin_create_topics (name : string) : M cluster unit :=
  λ c, match create_fault with
       | Some e => (Raise e, c)
       | None =>
           if bool_decide (name ∈ topics c)
           then (Raise TopicAlreadyExistsError, c)
           else (Ok (), with_topics c (topics c ++ [name]))
       end.

(** [get_bootstrap_servers()] *)
Definition get_bootstrap_servers : M cluster json :=
  try_except
    (match get_bootstrap_brokers with
     | Ok response =>
         let bootstrap_servers :=
           dict_get response "BootstrapBrokerStringSaslIam" JNull in
         if negb (truthy bootstrap_servers)
         then raise (ValueError "Failed to get bootstrap servers. Check the cluster ARN and your permissions.")
         else ret bootstrap_servers
     | Raise e => raise e
     end)
    (λ e, raise e).

(** [ensure_topic_exists(bootstrap_servers, topic_name)] *)
Definition ensure_topic_exists (bootstrap_servers : json)
    (topic_name : string) : M cluster unit :=
  try_except
    (KafkaAdminClient bootstrap_servers ;;
     try_finally
       (try_except
          (topics <- admin_list_topics ;;
           if bool_decide (topic_name ∉ topics)
           then admin_create_topics topic_name
           else ret ())
          (λ e, match e with
                | TopicAlreadyExistsError => ret ()
                | _ => raise e
                end))
       admin_close)%py
    (λ e, raise e).

(** [get_kafka_producer()] *)
Definition get_kafka_producer : M cluster unit :=
  try_except
    (bootstrap_servers <- get_bootstrap_servers ;;
     ensure_topic_exists bootstrap_servers MSK_TOPIC ;;
     match producer_connect_fault with
     | Some e => raise e
     | None => ret ()
     end)%py
    (λ e, raise e).

Definition reply (status : Z) (fields : pydict) : response :=
  {| statusCode := status; body := JObj fields |}.

(** [process_event(body)] *)
Definition process_event (body : json) : M cluster response :=
  try_except
    (if negb (schema_valid body)
     then ret (reply 400 {[ "message" := JStr "Invalid event format" ]})
     else
       match body with
       | JObj body =>
           let match_id := dict_get body "match_id" JNull in
           if negb (truthy match_id)
           then ret (reply 400 {[ "message" := JStr "match_id is required" ]})
           else
             (get_kafka_producer ;;
              let body :=
                if negb (dict_has body "event_id")
                then <["event_id" := JStr uuid4]> body
                else body in
              send_and_wait MSK_TOPIC match_id body ;;
              ret (reply 200
                     (<["message" := JStr "Event published successfully"]>
                        {[ "event_id" := dict_get body "event_id" JNull ]})))%py
       | _ => raise AttributeError
       end)
    (λ e, ret (reply 500
                 {[ "message" := JStr ("Error publishing event: " +:+ exn_str e) ]})).

(** [json.loads(event['body'])] *)
Definition parse_body (raw : json) : result json :=
  match raw with
  | JStr s =>
      match json_loads s with
      | Some body => Ok body
      | None => Raise JSONDecodeError
      end
  | _ => Raise TypeError
  end.

(** [lambda_handler(event, context)] of the producer. *)
Definition lambda_handler (event : pydict) : M cluster response :=
  try_except
    (match event !! "body" with
     | Some raw =>
         match parse_body raw with
         | Ok body => process_event body
         | Raise e => raise e
         end
     | None => ret (reply 400 {[ "message" := JStr "Missing request body" ]})
     end)
    (λ e, ret (reply 500
                 {[ "message" := JStr ("Error processing request: " +:+ exn_str e) ]})).

End ingest.

End Ingest.

(** * The query handler: [lambdas/query_handler/app.py] *)

Module Query.

(** The [KeyConditionExpression] of a query: the partition key is equal to
    a value and, if given, the sort key of the index begins with a
    prefix. *)
Record key_condition := {
  partition_eq : string * string;
  sort_begins_with : option (string * string);
  index_name : option string;
}.

(** The response of [table.query]. *)
Record query_response := {
  Items : option (list pydict);
}.

(** [table.query(...)] of the store's client: a response, or it raises. *)
Class Table := {
  query : key_condition → result query_response;
}.

(** What a route returns: a dict, or a dict with a status. *)
Inductive answer :=
  | Body (d : pydict)
  | BodyStatus (d : pydict) (status : Z).

(** The condition of [get_match_events]. *)
Definition events_condition (match_id : string) : key_condition :=
  {| partition_eq := ("match_id", match_id);
     sort_begins_with := None;
     index_name := None |}.

(** The condition of [get_match_goals] and [get_match_passes], with the
    prefix ['goal#'] and ['pass#']. *)
Definition typed_condition (match_id type_prefix : string) : key_condition :=
  {| partition_eq := ("match_id", match_id);
     sort_begins_with := Some ("event_type_timestamp", type_prefix);
     index_name := Some "EventTypeTimestampIndex" |}.

Section routes.
Context `{Runtime} `{Table}.

(** The body shared by the three routes: the query, the count of the items
    and the answer, or the error with status 500. *)
Definition run_query (cond : key_condition) (match_id count_key items_key : string)
  : answer :=
  match query cond with
  | Ok response =>
      let items := default [] (Items response) in
      Body (<["match_id" := JStr match_id]>
              (<[count_key := JInt (Z.of_nat (length items))]>
                 {[ items_key := JArr (JObj <$> items) ]}))
  | Raise e => BodyStatus {[ "error" := JStr (exn_str e) ]} 500
  end.

(** [get_match_events(match_id)] *)
Definition get_match_events (match_id : string) : answer :=
  run_query (events_condition match_id) match_id "event_count" "events".

(** [get_match_goals(match_id)] *)
Definition get_match_goals (match_id : string) : answer :=
  run_query (typed_condition match_id "goal#") match_id "total_goals" "goals".

(** [get_match_passes(match_id)] *)
Definition get_match_passes (match_id : string) : answer :=
  run_query (typed_condition match_id "pass#") match_id "total_passes" "passes".

End routes.

End Query.

(** * A concrete runtime, store and cluster

    Models of the library functions on the inputs of the scenarios: ASCII
    payloads, canonical base64, JSON without floats and unicode escapes,
    and the ISO-8601 grammar that the documentation of
    [datetime.fromisoformat] gives. *)

Module Sample.

(** ** [datetime.fromisoformat] *)

Definition digit_of (c : ascii) : option Z :=
  let n := Z.of_N (N_of_ascii c) in
  if (48 <=? n) && (n <=? 57) then Some (n - 48) else None.

(** Exactly [n] decimal digits at the head of [s]. *)
Fixpoint read_digits (n : nat) (acc : Z) (s : string) : option (Z * string) :=
  match n, s with
  | O, _ => Some (acc, s)
  | S n, String c rest => d ← digit_of c; read_digits n (10 * acc + d) rest
  | S _, EmptyString => None
  end.

Definition expect (c : ascii) (s : string) : option string :=
  match s with
  | String c' rest => if Ascii.eqb c c' then Some rest else None
  | EmptyString => None
  end.

Definition is_leap (y : Z) : bool :=
  (y mod 4 =? 0) && (negb (y mod 100 =? 0) || (y mod 400 =? 0)).

Definition days_in_month (y m : Z) : Z :=
  if m =? 2 then (if is_leap y then 29 else 28)
  else if (m =? 4) || (m =? 6) || (m =? 9) || (m =? 11) then 30
  else 31.

(** [HH[:MM[:SS[.fff[fff]]]]], to the end of the string. *)
Definition parse_hh_mm_ss_ff (s : string) : option (Z * Z * Z * Z) :=
  '(hh, s) ← read_digits 2 0 s;
  match s with
  | EmptyString => Some (hh, 0, 0, 0)
  | String c s =>
      if negb (Ascii.eqb c ":") then None else
      '(mm, s) ← read_digits 2 0 s;
      match s with
      | EmptyString => Some (hh, mm, 0, 0)
      | String c s =>
          if negb (Ascii.eqb c ":") then None else
          '(ss, s) ← read_digits 2 0 s;
          match s with
          | EmptyString => Some (hh, mm, ss, 0)
          | String c s =>
              if negb (Ascii.eqb c ".") then None else
              match String.length s with
              | 3%nat =>
                  '(ff, _) ← read_digits 3 0 s; Some (hh, mm, ss, ff * 1000)
              | 6%nat =>
                  '(ff, _) ← read_digits 6 0 s; Some (hh, mm, ss, ff)
              | _ => None
              end
          end
      end
  end.

(** The time text up to the first sign, and the sign and the offset text
    after it. *)
Fixpoint split_tz (s : string) : string * option (bool * string) :=
  match s with
  | EmptyString => (EmptyString, None)
  | String c rest =>
      if Ascii.eqb c "+" then (EmptyString, Some (false, rest))
      else if Ascii.eqb c "-" then (EmptyString, Some (true, rest))
      else let '(t, tz) := split_tz rest in (String c t, tz)
  end.

(** The offset in seconds and microseconds: [HH:MM], [HH:MM:SS] or
    [HH:MM:SS.ffffff], strictly inside a day. *)
Definition parse_tz (negative : bool) (s : string) : option Z :=
  let n := String.length s in
  if negb (bool_decide (n = 5 ∨ n = 8 ∨ n = 15)%nat) then None else
  '(hh, mm, ss, ff) ← parse_hh_mm_ss_ff s;
  let micro := ((hh * 3600 + mm * 60 + ss) * 1000000 + ff) in
  if micro <? 86400 * 1000000
  then Some (if negative then - (hh * 3600 + mm * 60 + ss)
             else hh * 3600 + mm * 60 + ss)
  else None.

Definition fromisoformat (s : string) : option datetime :=
  '(y, s) ← read_digits 4 0 s;
  s ← expect "-" s;
  '(m, s) ← read_digits 2 0 s;
  s ← expect "-" s;
  '(d, s) ← read_digits 2 0 s;
  '(hh, mm, ss, ff, tz) ←
    match s with
    | EmptyString => Some (0, 0, 0, 0, None)
    | String _ s =>
        let '(t, tz) := split_tz s in
        '(hh, mm, ss, ff) ← parse_hh_mm_ss_ff t;
        match tz with
        | None => Some (hh, mm, ss, ff, None)
        | Some (negative, z) =>
            off ← parse_tz negative z; Some (hh, mm, ss, ff, Some off)
        end
    end;
  if (1 <=? y) && (1 <=? m) && (m <=? 12) && (1 <=? d)
     && (d <=? days_in_month y m) && (hh <? 24) && (mm <? 60) && (ss <? 60)
  then Some {| year := y; month := m; day := d; hour := hh; minute := mm;
               second := ss; microsecond := ff; tzoffset := tz |}
  else None.


(** ** [base64.b64decode] and [bytes.decode('utf-8')] *)

Definition code (c : ascii) : Z := Z.of_N (N_of_ascii c).
Definition byte (z : Z) : ascii := ascii_of_N (Z.to_N (z mod 256)).

Definition b64_value (c : ascii) : option Z :=
  let n := code c in
  if (65 <=? n) && (n <=? 90) then Some (n - 65)
  else if (97 <=? n) && (n <=? 122) then Some (n - 71)
  else if (48 <=? n) && (n <=? 57) then Some (n + 4)
  else if n =? 43 then Some 62
  else if n =? 47 then Some 63
  else None.

(** [binascii.a2b_base64] without [strict_mode]: characters outside the
    alphabet are skipped, a complete padding ends the data, and the data
    must end on a group boundary. *)
Fixpoint a2b_base64 (s : string) (quad_pos : nat) (leftchar : Z) (pads : nat)
  : option string :=
  match s with
  | EmptyString => if bool_decide (quad_pos = 0%nat) then Some EmptyString else None
  | String c rest =>
      if Ascii.eqb c "=" then
        if (2 <=? quad_pos)%nat then
          if (4 <=? quad_pos + S pads)%nat then Some EmptyString
          else a2b_base64 rest quad_pos leftchar (S pads)
        else a2b_base64 rest quad_pos leftchar pads
      else
        match b64_value c with
        | None => a2b_base64 rest quad_pos leftchar pads
        | Some v =>
            match quad_pos with
            | 0%nat => a2b_base64 rest 1 v 0
            | 1%nat =>
                String (byte (leftchar * 4 + v / 16))
                  <$> a2b_base64 rest 2 (v mod 16) 0
            | 2%nat =>
                String (byte (leftchar * 16 + v / 4))
                  <$> a2b_base64 rest 3 (v mod 4) 0
            | _ =>
                String (byte (leftchar * 64 + v)) <$> a2b_base64 rest 0 0 0
            end
        end
  end.

Fixpoint is_ascii (s : string) : bool :=
  match s with
  | EmptyString => true
  | String c rest => (code c <? 128) && is_ascii rest
  end.

(** A [str] argument must be ASCII. *)
Definition b64decode (s : string) : option string :=
  if is_ascii s then a2b_base64 s 0 0 0 else None.

Definition continuation (lo hi : Z) (s : string) : option string :=
  match s with
  | String c rest => if (lo <=? code c) && (code c <=? hi) then Some rest else None
  | EmptyString => None
  end.

(** Well-formed UTF-8; text stays in its UTF-8 bytes. [fuel] bounds the
    number of characters. *)
Fixpoint utf8_valid (fuel : nat) (s : string) : bool :=
  match fuel, s with
  | _, EmptyString => true
  | O, _ => false
  | S fuel, String c rest =>
      let b := code c in
      let tail :=
        if b <? 128 then Some rest
        else if (194 <=? b) && (b <=? 223) then continuation 128 191 rest
        else if b =? 224 then continuation 160 191 rest ≫= continuation 128 191
        else if b =? 237 then continuation 128 159 rest ≫= continuation 128 191
        else if (225 <=? b) && (b <=? 239) then
          continuation 128 191 rest ≫= continuation 128 191
        else if b =? 240 then
          (continuation 144 191 rest ≫= continuation 128 191) ≫= continuation 128 191
        else if (241 <=? b) && (b <=? 243) then
          (continuation 128 191 rest ≫= continuation 128 191) ≫= continuation 128 191
        else if b =? 244 then
          (continuation 128 143 rest ≫= continuation 128 191) ≫= continuation 128 191
        else None in
      match tail with
      | Some rest => utf8_valid fuel rest
      | None => false
      end
  end.

Definition utf8_decode (s : string) : option string :=
  if utf8_valid (String.length s) s then Some s else None.

(** ** [json.loads] *)

(** The double quote. *)
Definition quote : ascii := ascii_of_N 34.

Definition is_ws (c : ascii) : bool :=
  let n := code c in (n =? 32) || (n =? 9) || (n =? 10) || (n =? 13).

Fixpoint skip_ws (s : string) : string :=
  match s with
  | String c rest => if is_ws c then skip_ws rest else s
  | EmptyString => s
  end.

Fixpoint strip_prefix (p s : string) : option string :=
  match p, s with
  | EmptyString, _ => Some s
  | String a p, String b s => if Ascii.eqb a b then strip_prefix p s else None
  | String _ _, EmptyString => None
  end.

Definition hex_value (c : ascii) : option Z :=
  let n := code c in
  if (48 <=? n) && (n <=? 57) then Some (n - 48)
  else if (65 <=? n) && (n <=? 70) then Some (n - 55)
  else if (97 <=? n) && (n <=? 102) then Some (n - 87)
  else None.

Fixpoint read_hex (n : nat) (acc : Z) (s : string) : option (Z * string) :=
  match n, s with
  | O, _ => Some (acc, s)
  | S n, String c rest => d ← hex_value c; read_hex n (16 * acc + d) rest
  | S _, EmptyString => None
  end.

(** UTF-8 of a code point of the basic plane. *)
Definition encode_utf8 (cp : Z) : string :=
  if cp <? 128 then String (byte cp) EmptyString
  else if cp <? 2048 then
    String (byte (192 + cp / 64)) (String (byte (128 + cp mod 64)) EmptyString)
  else
    String (byte (224 + cp / 4096))
      (String (byte (128 + (cp / 64) mod 64))
         (String (byte (128 + cp mod 64)) EmptyString)).

(** The character that stands after a backslash. *)
Definition simple_escape (e : ascii) : option ascii :=
  let n := code e in
  if (n =? 34) || (n =? 92) || (n =? 47) then Some e
  else if n =? 98 then Some (byte 8)
  else if n =? 102 then Some (byte 12)
  else if n =? 110 then Some (byte 10)
  else if n =? 114 then Some (byte 13)
  else if n =? 116 then Some (byte 9)
  else None.

(** A string literal after its opening quote: its text and what follows
    the closing quote. Escapes of surrogates are outside this model. *)
Fixpoint parse_string (fuel : nat) (s : string) : option (string * string) :=
  match fuel, s with
  | O, _ => None
  | _, EmptyString => None
  | S fuel, String c rest =>
      if Ascii.eqb c quote then Some (EmptyString, rest)
      else if code c =? 92 then
        match rest with
        | EmptyString => None
        | String e rest =>
            if code e =? 117 then
              '(cp, rest) ← read_hex 4 0 rest;
              if (55296 <=? cp) && (cp <=? 57343) then None else
              '(t, rest) ← parse_string fuel rest;
              Some (encode_utf8 cp +:+ t, rest)
            else
              c ← simple_escape e;
              '(t, rest) ← parse_string fuel rest;
              Some (String c t, rest)
        end
      else if code c <? 32 then None
      else '(t, rest) ← parse_string fuel rest; Some (String c t, rest)
  end.

Fixpoint read_all_digits (s : string) (acc : Z) : Z * string :=
  match s with
  | String c rest =>
      match digit_of c with
      | Some d => read_all_digits rest (10 * acc + d)
      | None => (acc, s)
      end
  | EmptyString => (acc, s)
  end.

(** An integer literal. A fraction or an exponent makes a [float], which
    is outside this model. *)
Definition parse_number (s : string) : option (json * string) :=
  let '(negative, s) :=
    match strip_prefix "-" s with
    | Some rest => (true, rest)
    | None => (false, s)
    end in
  match s with
  | EmptyString => None
  | String c rest =>
      d ← digit_of c;
      let '(v, rest) := if d =? 0 then (0, rest) else read_all_digits rest d in
      let is_float :=
        match rest with
        | String c _ => (code c =? 46) || (code c =? 101) || (code c =? 69)
        | EmptyString => false
        end in
      if is_float then None
      else Some (JInt (if negative then - v else v), rest)
  end.

Fixpoint parse_value (fuel : nat) (s : string) : option (json * string) :=
  match fuel, s with
  | O, _ => None
  | _, EmptyString => None
  | S fuel, String c rest =>
      if Ascii.eqb c quote then
        '(t, rest) ← parse_string (String.length rest) rest; Some (JStr t, rest)
      else if Ascii.eqb c "{" then
        match strip_prefix "}" (skip_ws rest) with
        | Some rest => Some (JObj ∅, rest)
        | None =>
            '(m, rest) ← parse_members fuel (skip_ws rest) ∅; Some (JObj m, rest)
        end
      else if Ascii.eqb c "[" then
        match strip_prefix "]" (skip_ws rest) with
        | Some rest => Some (JArr [], rest)
        | None =>
            '(l, rest) ← parse_elements fuel (skip_ws rest) []; Some (JArr l, rest)
        end
      else
        match strip_prefix "null" s, strip_prefix "true" s,
              strip_prefix "false" s with
        | Some rest, _, _ => Some (JNull, rest)
        | _, Some rest, _ => Some (JBool true, rest)
        | _, _, Some rest => Some (JBool false, rest)
        | None, None, None => parse_number s
        end
  end
with parse_members (fuel : nat) (s : string) (acc : pydict)
  : option (pydict * string) :=
  match fuel with
  | O => None
  | S fuel =>
      s ← expect quote s;
      '(k, s) ← parse_string (String.length s) s;
      s ← expect ":" (skip_ws s);
      '(v, s) ← parse_value fuel (skip_ws s);
      (* a repeated key keeps its last value *)
      let acc := <[k := v]> acc in
      match strip_prefix "," (skip_ws s), strip_prefix "}" (skip_ws s) with
      | Some rest, _ => parse_members fuel (skip_ws rest) acc
      | None, Some rest => Some (acc, rest)
      | None, None => None
      end
  end
with parse_elements (fuel : nat) (s : string) (acc : list json)
  : option (list json * string) :=
  match fuel with
  | O => None
  | S fuel =>
      '(v, s) ← parse_value fuel s;
      let acc := acc ++ [v] in
      match strip_prefix "," (skip_ws s), strip_prefix "]" (skip_ws s) with
      | Some rest, _ => parse_elements fuel (skip_ws rest) acc
      | None, Some rest => Some (acc, rest)
      | None, None => None
      end
  end.

(** One document, with white space around it and nothing else. *)
Definition json_loads (s : string) : option json :=
  '(v, rest) ← parse_value (S (String.length s)) (skip_ws s);
  match skip_ws rest with
  | EmptyString => Some v
  | String _ _ => None
  end.

(** [str(v)] of the scalars; the scenarios format no float and no
    container. *)
Definition py_repr (v : json) : string :=
  match v with
  | JNull => "None"
  | JBool true => "True"
  | JBool false => "False"
  | JInt z => pretty z
  | _ => "?"
  end.

(** [str(e)]; for an exception whose text depends on the input, the name
    of its class stands for the text. *)
Definition exn_str (e : exn) : string :=
  match e with
  | Exception msg | ValueError msg | KafkaError msg | ClientError msg => msg
  | TypeError => "TypeError"
  | AttributeError => "AttributeError"
  | JSONDecodeError => "JSONDecodeError"
  | TopicAlreadyExistsError => "TopicAlreadyExistsError"
  end.

#[export] Instance runtime : Runtime :=
  Build_Runtime b64decode utf8_decode json_loads fromisoformat py_repr exn_str.

(** ** The store *)

(** The key attributes of an item: both must be non-empty strings. *)
Definition item_key (item : pydict) : option (string * string) :=
  match item !! "match_id", item !! "event_timestamp" with
  | Some (JStr m), Some (JStr ts) =>
      if truthy (JStr m) && truthy (JStr ts) then Some (m, ts) else None
  | _, _ => None
  end.

(** [PutItem]: the item replaces what the table holds under its key. *)
Definition put (t : Consumer.table) (keyed : (string * string) * pydict)
  : Consumer.table :=
  <[keyed.1 := keyed.2]> t.

(** One [BatchWriteItem] call: a request with an item without key or with
    two items of one key is refused as a whole. *)
Definition batch_write_item (items : list pydict) : M Consumer.table unit :=
  λ t,
    match mapM item_key items with
    | Some keys =>
        if bool_decide (NoDup keys)
        then (Ok (), foldl put t (zip keys items))
        else (Raise (ClientError
                       "Provided list of item keys contains duplicates"), t)
    | None =>
        (Raise (ClientError "One or more parameter values were invalid"), t)
    end.

#[export] Instance dynamodb : Consumer.DynamoDB :=
  Consumer.Build_DynamoDB batch_write_item.

(** The items that [table.scan()] returns. *)
Definition scan (t : Consumer.table) : list pydict := (map_to_list t).*2.

(** The items of the table that carry the key [k]. *)
Definition items_with_key (k : string * string) (t : Consumer.table)
  : list pydict :=
  filter (λ item, item_key item = Some k) (scan t).

(** ** The cluster *)

(** Modelled from the spec: [schema.json] is not part of the sources; the
    submission endpoint requires [match_id] and [event_type], as strings. *)
Definition schema_valid (body : json) : bool :=
  match body with
  | JObj m =>
      match m !! "match_id", m !! "event_type" with
      | Some (JStr _), Some (JStr _) => true
      | _, _ => false
      end
  | _ => false
  end.

(** The broker acknowledges and appends. *)
Definition send_and_wait (topic : string) (key : json) (value : pydict)
  : M Ingest.cluster unit := λ c,
  (Ok (), {| Ingest.topics := Ingest.topics c;
             Ingest.published := Ingest.published c ++ [(topic, key, value)];
             Ingest.open_admin_clients := Ingest.open_admin_clients c |}).

(** A healthy cluster. [listing] is what [list_topics] answers: the
    topics of the cluster, or an older snapshot. *)
Definition kafka (listing : list string → list string) : Ingest.KafkaEnv := {|
  Ingest.MSK_TOPIC := "football-events";
  Ingest.schema_valid := schema_valid;
  Ingest.get_bootstrap_brokers :=
    Ok {[ "BootstrapBrokerStringSaslIam" := JStr "b-1.msk:9098" ]};
  Ingest.admin_connect_fault := None;
  Ingest.list_topics := λ ts, Ok (listing ts);
  Ingest.create_fault := None;
  Ingest.producer_connect_fault := None;
  Ingest.send_and_wait := send_and_wait;
  Ingest.uuid4 := "123e4567-e89b-42d3-a456-426614174000";
|}.

(** ** The records of the unit tests *)

(** A record as the event source mapping delivers it. *)
Definition kafka_record (offset : Z) (value : string) : pydict :=
  <["topic" := JStr "football-events"]>
    (<["partition" := JInt 0]>
       (<["offset" := JInt offset]>
          (<["timestamp" := JInt (1630000000000 + 1000 * offset)]>
             (<["timestampType" := JStr "CREATE_TIME"]>
                {[ "value" := JStr value ]})))).

(** The goal of [SAMPLE_KAFKA_EVENT], at [2023-08-15T14:30:00Z]. *)
Definition goal_value : string :=
  "eyJtYXRjaF9pZCI6ICJtYXRjaC0xMjMiLCAiZXZlbnRfdHlwZSI6ICJnb2FsIiwgInBsYXllcl9pZCI6ICJwbGF5ZXItNDU2IiwgInRlYW1faWQiOiAidGVhbS03ODkiLCAidGltZXN0YW1wIjogIjIwMjMtMDgtMTVUMTQ6MzA6MDBaIiwgImRldGFpbHMiOiB7Im1pbnV0ZSI6IDQyLCAiYXNzaXN0X3BsYXllcl9pZCI6ICJwbGF5ZXItNzg5In19".

(** The card of [SAMPLE_KAFKA_EVENT], at [2023-08-15T14:35:00Z]. *)
Definition card_value : string :=
  "eyJtYXRjaF9pZCI6ICJtYXRjaC0xMjMiLCAiZXZlbnRfdHlwZSI6ICJjYXJkIiwgInBsYXllcl9pZCI6ICJwbGF5ZXItNDU2IiwgInRlYW1faWQiOiAidGVhbS03ODkiLCAidGltZXN0YW1wIjogIjIwMjMtMDgtMTVUMTQ6MzU6MDBaIiwgImRldGFpbHMiOiB7Im1pbnV0ZSI6IDQ3LCAiY2FyZF90eXBlIjogInllbGxvdyJ9fQ==".

(** A value that is base64 of text that is not JSON. *)
Definition broken_value : string := "bm90IGpzb24=".

Definition SAMPLE_KAFKA_EVENT : Consumer.kafka_event :=
  {| Consumer.records :=
       Some [("football-events-0",
              [kafka_record 0 goal_value; kafka_record 1 card_value])] |}.

(** The same batch with the card made undecodable. *)
Definition BROKEN_KAFKA_EVENT : Consumer.kafka_event :=
  {| Consumer.records :=
       Some [("football-events-0",
              [kafka_record 0 goal_value; kafka_record 1 broken_value])] |}.

(** What [goal_value] decodes to. *)
Definition goal_event : pydict :=
  <["match_id" := JStr "match-123"]>
    (<["event_type" := JStr "goal"]>
       (<["player_id" := JStr "player-456"]>
          (<["team_id" := JStr "team-789"]>
             (<["timestamp" := JStr "2023-08-15T14:30:00Z"]>
                {[ "details" :=
                     JObj (<["minute" := JInt 42]>
                             {[ "assist_player_id" := JStr "player-789" ]}) ]})))).


Definition vague_event : pydict :=
  <["match_id" := JStr "m1"]>
    (<["event_type" := JStr "goal"]> {[ "timestamp" := JStr "yesterday" ]}).

(** The goal of [SAMPLE_JANUARY_EVENT], at [2023-01-15T14:30:00Z]. *)
Definition january_value : string :=
  "eyJtYXRjaF9pZCI6ICJtYXRjaC0xMjMiLCAiZXZlbnRfdHlwZSI6ICJnb2FsIiwgInBsYXllcl9pZCI6ICJwbGF5ZXItNDU2IiwgInRlYW1faWQiOiAidGVhbS03ODkiLCAidGltZXN0YW1wIjogIjIwMjMtMDEtMTVUMTQ6MzA6MDBaIiwgImRldGFpbHMiOiB7Im1pbnV0ZSI6IDQyLCAiYXNzaXN0X3BsYXllcl9pZCI6ICJwbGF5ZXItNzg5In19".

Definition SAMPLE_JANUARY_EVENT : Consumer.kafka_event :=
  {| Consumer.records :=
       Some [("football-events-0", [kafka_record 0 january_value])] |}.

(** The record of [test_process_record]: the goal without [details]. *)
Definition plain_goal_record : pydict :=
  {[ "value" := JStr "eyJtYXRjaF9pZCI6ICJtYXRjaC0xMjMiLCAiZXZlbnRfdHlwZSI6ICJnb2FsIiwgInBsYXllcl9pZCI6ICJwbGF5ZXItNDU2IiwgInRlYW1faWQiOiAidGVhbS03ODkiLCAidGltZXN0YW1wIjogIjIwMjMtMDgtMTVUMTQ6MzA6MDBaIn0=" ]}.

(** Two records that carry no value: every one of them is dropped. *)
Definition VALUELESS_KAFKA_EVENT : Consumer.kafka_event :=
  {| Consumer.records :=
       Some [("football-events-0",
              [delete "value" (kafka_record 0 goal_value);
               delete "value" (kafka_record 1 card_value)])] |}.

(** ** The consumer on the sample runtime and store *)

Definition derive_season : json → string := Consumer.derive_season.
Definition enrich : pydict → pydict := Consumer.enrich.
Definition process_record : pydict → option pydict := Consumer.process_record.
Definition batch_write_to_dynamodb
  : list pydict → Consumer.table → nat * Consumer.table :=
  Consumer.batch_write_to_dynamodb.
Definition consume : Consumer.kafka_event → M Consumer.table response :=
  Consumer.lambda_handler.

(** ** Items for a bulk write of more than one call *)

Definition pass_item (i : nat) : pydict :=
  <["match_id" := JStr "m1"]>
    (<["event_type" := JStr "pass"]>
       {[ "event_timestamp" := JStr ("2023-08-15T14:30:00.0" +:+ pretty i) ]}).

(** An item without sort key, which the store refuses. *)
Definition keyless_item : pydict :=
  <["match_id" := JStr "m1"]> {[ "event_type" := JStr "pass" ]}.

(** 25 passes and one item that the store refuses. *)
Definition twenty_six_items : list pydict :=
  (pass_item <$> seq 10 25) ++ [keyless_item].

(** ** The producer on the sample runtime and cluster *)

(** A cluster with the topics [ts], nothing published and no client. *)
Definition cluster_with (ts : list string) : Ingest.cluster :=
  {| Ingest.topics := ts; Ingest.published := []; Ingest.open_admin_clients := 0 |}.

(** A listing that is up to date, and one taken before any topic existed. *)
Definition fresh_listing (ts : list string) : list string := ts.
Definition stale_listing (ts : list string) : list string := [].

Definition produce : pydict → M Ingest.cluster response :=
  @Ingest.lambda_handler runtime (kafka fresh_listing).


(** The submission of the goal of the unit tests: its body is the JSON
    text that [goal_value] encodes. *)
Definition goal_submission : pydict :=
  {[ "body" := JStr (default EmptyString (b64decode goal_value)) ]}.

(** A goal that came without [event_type], and a submission without
    body. *)
Definition untyped_value : string :=
  "eyJtYXRjaF9pZCI6ICJtMSIsICJ0aW1lc3RhbXAiOiAiMjAyMy0wOC0xNVQxNDozMDowMFoifQ==".

Definition bodiless_submission : pydict := {[ "httpMethod" := JStr "POST" ]}.

(** A cluster whose brokers cannot be asked for: the call of
    [get_bootstrap_brokers] raises. *)
Definition kafka_unreachable : Ingest.KafkaEnv := {|
  Ingest.MSK_TOPIC := "football-events";
  Ingest.schema_valid := schema_valid;
  Ingest.get_bootstrap_brokers :=
    Raise (ClientError "Could not connect to the endpoint URL");
  Ingest.admin_connect_fault := None;
  Ingest.list_topics := λ ts, Ok ts;
  Ingest.create_fault := None;
  Ingest.producer_connect_fault := None;
  Ingest.send_and_wait := send_and_wait;
  Ingest.uuid4 := "123e4567-e89b-42d3-a456-426614174000";
|}.

(** A cluster with faults: [connect] fails the connection of the admin
    client, [listing] is the outcome of [list_topics], and [create] fails
    the creation of a topic. *)
Definition kafka_faulty (connect : option exn)
    (listing : result (list string)) (create : option exn)
  : Ingest.KafkaEnv := {|
  Ingest.MSK_TOPIC := "football-events";
  Ingest.schema_valid := schema_valid;
  Ingest.get_bootstrap_brokers :=
    Ok {[ "BootstrapBrokerStringSaslIam" := JStr "b-1.msk:9098" ]};
  Ingest.admin_connect_fault := connect;
  Ingest.list_topics := λ _, listing;
  Ingest.create_fault := create;
  Ingest.producer_connect_fault := None;
  Ingest.send_and_wait := send_and_wait;
  Ingest.uuid4 := "123e4567-e89b-42d3-a456-426614174000";
|}.

End Sample.

(** * Vocabulary of the statements *)

Section vocabulary.
Context `{Runtime}.
Import Consumer.

(** The event after lines 66-70 of [process_record], before the composite
    key is added. *)
Definition backfilled (event : pydict) : pydict :=
  let event :=
    <["season" :=
        JStr (derive_season (dict_get event "timestamp" (JStr EmptyString)))]>
      event in
  if dict_has event "timestamp" && negb (dict_has event "event_timestamp")
  then <["event_timestamp" := dict_get event "timestamp" JNull]> event
  else event.


(** [total_records] of the handler: the records of all partitions. *)
Definition records_received (parts : list (string * list pydict)) : nat :=
  sum_list (length <$> parts.*2).

(** [processed_items] of the handler: the enriched events of the records
    that [process_record] accepts, in the order of arrival. *)
Definition enriched (parts : list (string * list pydict)) : list pydict :=
  omap process_record (concat parts.*2).

(** What lines 51-53 of [process_record] get out of a record; [None] when
    the record has no ['value'] or its decode raises. *)
Definition decoded (record : pydict) : option json :=
  record !! "value" ≫= decode_value.

End vocabulary.

Section bulk_write_vocabulary.
Context `{Consumer.DynamoDB}.

(** The physical calls that a bulk write makes: the items in their order,
    cut after every [flush_amount]-th; [buffer] is what waits from before. *)
Fixpoint chunks (buffer items : list pydict) : list (list pydict) :=
  match items with
  | [] => match buffer with [] => [] | _ :: _ => [buffer] end
  | item :: items =>
      let buffer := buffer ++ [item] in
      if (Consumer.flush_amount <=? length buffer)%nat
      then buffer :: chunks [] items
      else chunks buffer items
  end.

(** The calls one after the other, up to the first that raises. *)
Fixpoint write_chunks (calls : list (list pydict)) : M Consumer.table unit :=
  match calls with
  | [] => ret ()
  | call :: calls => (Consumer.batch_write_item call ;; write_chunks calls)%py
  end.

End bulk_write_vocabulary.

(** Every item of the table sits under its own key. *)
Definition table_wf (t : Consumer.table) : Prop :=
  ∀ k item, t !! k = Some item → Sample.item_key item = Some k.

Section producer_vocabulary.
Context `{Runtime} `{Ingest.KafkaEnv}.

(** The event as the producer publishes it: with the generated [event_id]
    when it came without one. *)
Definition with_event_id (body : pydict) : pydict :=
  if negb (dict_has body "event_id")
  then <["event_id" := JStr Ingest.uuid4]> body
  else body.

(** The answer of [process_event] to an exception. *)
Definition publishing_error (e : exn) : response :=
  Ingest.reply 500
    {[ "message" := JStr ("Error publishing event: " +:+ exn_str e) ]}.

(** The answer of [process_event] after the acknowledgment. *)
Definition published_answer (body : pydict) : response :=
  Ingest.reply 200
    (<["message" := JStr "Event published successfully"]>
       {[ "event_id" := dict_get (with_event_id body) "event_id" JNull ]}).

End producer_vocabulary.

(** An item meets a key condition: its partition attribute is the value,
    and its sort attribute is a string that begins with the prefix. *)
Definition satisfies (cond : Query.key_condition) (item : pydict) : Prop :=
  item !! (Query.partition_eq cond).1 = Some (JStr (Query.partition_eq cond).2)
  ∧ match Query.sort_begins_with cond with
    | None => True
    | Some (attribute, p) =>
        ∃ s, item !! attribute = Some (JStr s) ∧ String.prefix p s = true
    end.

(** The text has the character [#]. *)
Fixpoint has_hash (s : string) : bool :=
  match s with
  | EmptyString => false
  | String c rest => Ascii.eqb c "#" || has_hash rest
  end.

(** * Properties of the consumer *)

Section consumer_properties.
Context `{Runtime}.
Import Consumer.

Implicit Types (event item record : pydict) (v : json).

Lemma dict_has_true event k : dict_has event k = true ↔ is_Some (event !! k).
Proof. unfold dict_has. apply bool_decide_eq_true. Qed.

Lemma dict_has_false event k : dict_has event k = false ↔ event !! k = None.
Proof.
  unfold dict_has. rewrite bool_decide_eq_false, eq_None_not_Some. done.
Qed.

Lemma dict_get_Some event k v d : event !! k = Some v → dict_get event k d = v.
Proof. unfold dict_get. by intros ->. Qed.


Lemma enrich_unfold event :
  enrich event =
    <["event_type_timestamp" :=
        JStr (format_value (dict_get event "event_type" (JStr "unknown"))
              +:+ "#"
              +:+ format_value (dict_get (backfilled event) "event_timestamp" (JStr EmptyString)))]>
      (backfilled event).
Proof. reflexivity. Qed.

Lemma backfilled_lookup event k :
  k ≠ "season" → k ≠ "event_timestamp" → backfilled event !! k = event !! k.
Proof.
  intros Hs Ht. unfold backfilled.
  destruct (_ && _); by rewrite ?lookup_insert_ne.
Qed.

Lemma backfilled_event_timestamp event :
  backfilled event !! "event_timestamp" =
    match event !! "event_timestamp" with
    | Some v => Some v
    | None => event !! "timestamp"
    end.
Proof.
  unfold backfilled.
  destruct (event !! "event_timestamp") as [v|] eqn:Hev.
  - replace (dict_has _ "event_timestamp") with true.
    + rewrite andb_false_r. by rewrite lookup_insert_ne.
    + symmetry. apply dict_has_true. rewrite lookup_insert_ne by done. eauto.
  - replace (dict_has _ "event_timestamp") with false.
    2:{ symmetry. apply dict_has_false. by rewrite lookup_insert_ne. }
    rewrite andb_true_r.
    destruct (event !! "timestamp") as [ts|] eqn:Hts.
    + replace (dict_has _ "timestamp") with true.
      2:{ symmetry. apply dict_has_true. rewrite lookup_insert_ne by done. eauto. }
      rewrite lookup_insert_eq. f_equal. apply dict_get_Some.
      by rewrite lookup_insert_ne.
    + replace (dict_has _ "timestamp") with false.
      2:{ symmetry. apply dict_has_false. by rewrite lookup_insert_ne. }
      by rewrite lookup_insert_ne.
Qed.

Lemma enrich_lookup event k :
  k ≠ "season" → k ≠ "event_timestamp" → k ≠ "event_type_timestamp" →
  enrich event !! k = event !! k.
Proof.
  intros. rewrite enrich_unfold, lookup_insert_ne by done.
  by apply backfilled_lookup.
Qed.

Lemma enrich_event_timestamp event :
  enrich event !! "event_timestamp" = backfilled event !! "event_timestamp".
Proof. rewrite enrich_unfold. by rewrite lookup_insert_ne. Qed.

Lemma enrich_season event :
  enrich event !! "season" =
    Some (JStr (derive_season (dict_get event "timestamp" (JStr EmptyString)))).
Proof.
  rewrite enrich_unfold, lookup_insert_ne by done. unfold backfilled.
  destruct (_ && _); rewrite ?lookup_insert_ne by done; apply lookup_insert_eq.
Qed.

Lemma enrich_nonempty event : truthy (JObj (enrich event)) = true.
Proof.
  simpl. apply negb_true_iff, bool_decide_eq_false. intros Hempty.
  pose proof (enrich_season event) as Hs. rewrite Hempty in Hs.
  by rewrite lookup_empty in Hs.
Qed.

(** What [process_record] returns is the enrichment of the decoded
    dict. *)
Lemma process_record_Some record item :
  process_record record = Some item ↔
  ∃ value event, record !! "value" = Some value
                 ∧ decode_value value = Some (JObj event)
                 ∧ item = enrich event.
Proof.
  unfold process_record. split.
  - destruct (record !! "value") as [value|]; [|done].
    destruct (decode_value value) as [[]|] eqn:Hd; try done.
    intros [= <-]. eauto.
  - intros (value & event & -> & -> & ->). done.
Qed.

Lemma process_record_decode_fails record :
  (∀ value, record !! "value" = Some value → decode_value value = None) →
  process_record record = None.
Proof.
  intros Hd. unfold process_record.
  destruct (record !! "value") as [value|]; [|done].
  by rewrite (Hd value).
Qed.

End consumer_properties.

Section season.
Context `{Runtime}.
Import Consumer.


Lemma derive_season_parsed s ts :
  fromisoformat (replace_Z s) = Some ts →
  derive_season (JStr s) =
    if month ts <? 8
    then format_int (year ts - 1) +:+ "/" +:+ format_int (year ts)
    else format_int (year ts) +:+ "/" +:+ format_int (year ts + 1).
Proof. simpl. by intros ->. Qed.

End season.

(** The sample parser gives months of the calendar only, so that one of the
    two cases of the rule applies to every timestamp it parses. *)
Lemma sample_fromisoformat_month (s : string) (ts : datetime) :
  Sample.fromisoformat s = Some ts → 1 ≤ month ts ≤ 12.
Proof.
  unfold Sample.fromisoformat. intros Hparse.
  repeat (simplify_option_eq || case_match; try done).
  all: repeat match goal with
         | H : _ && _ = true |- _ => apply andb_prop in H as [? ?]
         end.
  all: repeat match goal with
         | H : (_ <=? _) = true |- _ => apply Z.leb_le in H
         end.
  all: simpl; lia.
Qed.

(** C3. For every timestamp that [fromisoformat] parses, with any runtime,
    [derive_season] gives the text of [year-1], a slash and [year] when the
    month is in 1..7, and of [year], a slash and [year+1] when the month is
    in 8..12. With the sample runtime, [2023-07-31T23:59:59Z] gives
    [2022/2023] and [2023-08-01T00:00:00Z] gives [2023/2024]. *)
Theorem derive_season_rule :
  (∀ (R : Runtime) (s : string) (ts : datetime),
     fromisoformat (replace_Z s) = Some ts →
     (1 ≤ month ts ≤ 7 →
      Consumer.derive_season (JStr s)
      = format_int (year ts - 1) +:+ "/" +:+ format_int (year ts))
     ∧ (8 ≤ month ts ≤ 12 →
        Consumer.derive_season (JStr s)
        = format_int (year ts) +:+ "/" +:+ format_int (year ts + 1)))
  ∧ Sample.derive_season (JStr "2023-07-31T23:59:59Z") = "2022/2023"
  ∧ Sample.derive_season (JStr "2023-08-01T00:00:00Z") = "2023/2024".
Proof.
  split; [|split; reflexivity].
  intros R s ts Hparse. rewrite (derive_season_parsed s ts Hparse).
  split; intros [Hlo Hhi].
  - by replace (month ts <? 8) with true by (symmetry; apply Z.ltb_lt; lia).
  - by replace (month ts <? 8) with false by (symmetry; apply Z.ltb_ge; lia).
Qed.

(** The rule at the January event of the unit tests. *)
Lemma derive_season_rule_witness :
  Sample.derive_season (JStr "2023-01-15T14:30:00Z") = "2022/2023".
Proof.
  destruct derive_season_rule as [Hrule _].
  destruct (Hrule Sample.runtime "2023-01-15T14:30:00Z"
              {| year := 2023; month := 1; day := 15; hour := 14;
                 minute := 30; second := 0; microsecond := 0;
                 tzoffset := Some 0 |} eq_refl) as [Hbefore _].
  apply Hbefore. simpl. lia.
Defined.

Section handler_loop.
Context `{Runtime} `{Consumer.DynamoDB}.
Import Consumer.

Lemma process_partition_spec acc recs :
  process_partition acc recs = acc ++ omap process_record recs.
Proof.
  unfold process_partition. revert acc.
  induction recs as [|record recs IH]; intros acc; simpl.
  - by rewrite app_nil_r.
  - rewrite IH. destruct (process_record record) as [item|] eqn:Hrec; [|done].
    apply process_record_Some in Hrec as (value & event & _ & _ & ->).
    pose proof (enrich_nonempty event) as Hitem. simpl in Hitem.
    rewrite Hitem. by rewrite <- app_assoc.
Qed.

Lemma process_partitions_from n acc parts :
  foldl (λ '(total_records, processed_items) '(_, recs),
           ((total_records + length recs)%nat,
            process_partition processed_items recs))
        (n, acc) parts
  = ((n + records_received parts)%nat, acc ++ enriched parts).
Proof.
  revert n acc. unfold records_received, enriched.
  induction parts as [|[pk recs] parts IH]; intros n acc; simpl.
  - by rewrite Nat.add_0_r, app_nil_r.
  - rewrite IH, process_partition_spec, omap_app, <- app_assoc.
    f_equal. symmetry. apply Nat.add_assoc.
Qed.

Lemma process_partitions_spec parts :
  process_partitions parts = (records_received parts, enriched parts).
Proof. unfold process_partitions. by rewrite process_partitions_from. Qed.

(** The handler on an invocation with ['records']: one bulk write of the
    enriched events, then the comparison of the two counts. *)
Lemma lambda_handler_records parts t :
  lambda_handler {| records := Some parts |} t =
    let '(success_count, t') := batch_write_to_dynamodb (enriched parts) t in
    (if bool_decide (success_count ≠ records_received parts)
     then Raise (Exception
                   (failure_message success_count (records_received parts)))
     else Ok {| statusCode := 200; body := success_body success_count |},
     t').
Proof.
  unfold lambda_handler. simpl. rewrite process_partitions_spec.
  destruct (enriched parts) as [|item items].
  - simpl. by destruct (bool_decide _).
  - destruct (batch_write_to_dynamodb (item :: items) t) as [n t'].
    by destruct (bool_decide _).
Qed.

Lemma elem_of_enriched parts pk recs record item :
  (pk, recs) ∈ parts → record ∈ recs → process_record record = Some item →
  item ∈ enriched parts.
Proof.
  intros Hpart Hrec Hitem. unfold enriched.
  apply list_elem_of_omap. exists record. split; [|done].
  apply list_elem_of_In, in_concat. exists recs.
  split; [|by apply list_elem_of_In].
  apply list_elem_of_In, list_elem_of_fmap. by exists (pk, recs).
Qed.

End handler_loop.

(** C4. In every event that [process_record] returns, with any runtime, the
    field [event_type_timestamp] is the text of the event's [event_type],
    the character [#] and the text of the event's [event_timestamp], in this
    order: literally their concatenation when the two fields are strings,
    and with [unknown] and the empty text read for a field that the event
    does not have. *)
Theorem event_type_timestamp_composite `{Runtime} (record item : pydict) :
  Consumer.process_record record = Some item →
  item !! "event_type_timestamp"
  = Some (JStr (format_value (dict_get item "event_type" (JStr "unknown"))
                +:+ "#"
                +:+ format_value
                      (dict_get item "event_timestamp" (JStr EmptyString))))
  ∧ ∀ event_type event_timestamp : string,
      item !! "event_type" = Some (JStr event_type) →
      item !! "event_timestamp" = Some (JStr event_timestamp) →
      item !! "event_type_timestamp"
      = Some (JStr (event_type +:+ "#" +:+ event_timestamp)).
Proof.
  intros (value & event & _ & _ & ->)%process_record_Some.
  assert (Consumer.enrich event !! "event_type_timestamp"
          = Some (JStr (format_value
                          (dict_get (Consumer.enrich event) "event_type"
                             (JStr "unknown"))
                        +:+ "#"
                        +:+ format_value
                              (dict_get (Consumer.enrich event)
                                 "event_timestamp" (JStr EmptyString)))))
    as Hkey.
  { unfold dict_get at 1 2.
    rewrite enrich_event_timestamp, (enrich_lookup event "event_type") by done.
    rewrite enrich_unfold at 1. by rewrite lookup_insert_eq. }
  split; [done|].
  intros event_type event_timestamp Htype Hts. rewrite Hkey.
  by rewrite (dict_get_Some _ _ _ _ Htype), (dict_get_Some _ _ _ _ Hts).
Qed.

(** The composite key of the goal of the unit tests. *)
Lemma event_type_timestamp_composite_witness :
  Sample.process_record (Sample.kafka_record 0 Sample.goal_value)
  = Some (Sample.enrich Sample.goal_event)
  ∧ Sample.enrich Sample.goal_event !! "event_type_timestamp"
    = Some (JStr "goal#2023-08-15T14:30:00Z").
Proof.
  assert (Sample.process_record (Sample.kafka_record 0 Sample.goal_value)
          = Some (Sample.enrich Sample.goal_event)) as Hrec
    by (vm_compute; reflexivity).
  split; [exact Hrec|].
  destruct (event_type_timestamp_composite _ _ Hrec) as [_ Hkey].
  apply (Hkey "goal" "2023-08-15T14:30:00Z"); vm_compute; reflexivity.
Defined.

(** C6. When the decoded event has [timestamp] and no [event_timestamp],
    the enriched event has [event_timestamp] equal to [timestamp]; when the
    decoded event has [event_timestamp], the enriched event has it
    unchanged. *)
Theorem event_timestamp_backfill `{Runtime} (record : pydict) (value : json)
    (event : pydict) :
  record !! "value" = Some value →
  Consumer.decode_value value = Some (JObj event) →
  ∃ item,
    Consumer.process_record record = Some item
    ∧ (∀ ts, event !! "timestamp" = Some ts →
             event !! "event_timestamp" = None →
             item !! "event_timestamp" = Some ts)
    ∧ (∀ v, event !! "event_timestamp" = Some v →
            item !! "event_timestamp" = Some v).
Proof.
  intros Hvalue Hdecode. exists (Consumer.enrich event). split.
  { apply process_record_Some. eauto. }
  rewrite enrich_event_timestamp, backfilled_event_timestamp.
  split.
  - by intros ts -> ->.
  - by intros v ->.
Qed.

(** The backfill at the goal of the unit tests. *)
Lemma event_timestamp_backfill_witness :
  ∃ item,
    Sample.process_record (Sample.kafka_record 0 Sample.goal_value) = Some item
    ∧ item !! "event_timestamp" = Some (JStr "2023-08-15T14:30:00Z").
Proof.
  destruct (event_timestamp_backfill (H := Sample.runtime)
              (Sample.kafka_record 0 Sample.goal_value)
              (JStr Sample.goal_value) Sample.goal_event)
    as (item & Hrec & Hfill & _).
  - vm_compute; reflexivity.
  - vm_compute; reflexivity.
  - exists item. split; [exact Hrec|].
    apply Hfill; vm_compute; reflexivity.
Defined.



(** C2. On an invocation with ['records'], the handler returns (status 200)
    exactly when the success count of the bulk write equals the number of
    records received in all partitions, dropped ones included; when the two
    differ it raises. *)
Theorem ack_iff_all_written `{Runtime} `{Consumer.DynamoDB}
    (parts : list (string * list pydict)) (t : Consumer.table) :
  let success_count := (Consumer.batch_write_to_dynamodb (enriched parts) t).1 in
  let outcome :=
    (Consumer.lambda_handler {| Consumer.records := Some parts |} t).1 in
  ((∃ r, outcome = Ok r ∧ statusCode r = 200)
   ↔ success_count = records_received parts)
  ∧ (is_ok outcome = true ↔ success_count = records_received parts)
  ∧ (success_count ≠ records_received parts →
     outcome = Raise (Exception (Consumer.failure_message
                                   success_count (records_received parts)))).
Proof.
  intros success_count outcome. subst success_count outcome.
  rewrite lambda_handler_records.
  destruct (Consumer.batch_write_to_dynamodb (enriched parts) t) as [n t'].
  simpl. case_bool_decide as Hcount; simpl.
  - split; [|split]; [split|split|done]; try done.
    by intros (r & [=] & _).
  - split; [|split]; [split|split|done]; eauto.
Qed.

(** The two records of the unit tests are written and acknowledged. *)
Lemma ack_iff_all_written_witness :
  (Sample.batch_write_to_dynamodb
     (enriched (H := Sample.runtime) [("football-events-0",
                 [Sample.kafka_record 0 Sample.goal_value;
                  Sample.kafka_record 1 Sample.card_value])]) ∅).1 = 2%nat
  ∧ is_ok (Sample.consume Sample.SAMPLE_KAFKA_EVENT ∅).1 = true.
Proof.
  assert ((Sample.batch_write_to_dynamodb
             (enriched (H := Sample.runtime) [("football-events-0",
                         [Sample.kafka_record 0 Sample.goal_value;
                          Sample.kafka_record 1 Sample.card_value])]) ∅).1
          = 2%nat) as Hcount by (vm_compute; reflexivity).
  split; [exact Hcount|].
  apply (ack_iff_all_written (H := Sample.runtime) (H0 := Sample.dynamodb)
           [("football-events-0",
             [Sample.kafka_record 0 Sample.goal_value;
              Sample.kafka_record 1 Sample.card_value])] ∅).
  exact Hcount.
Defined.

Section one_item.
Context `{Runtime} `{Consumer.DynamoDB}.
Import Consumer.

Lemma process_record_decoded_None record :
  decoded record = None → process_record record = None.
Proof.
  unfold decoded, process_record.
  destruct (record !! "value") as [value|]; simpl; [|done]. by intros ->.
Qed.

Lemma records_received_length parts :
  records_received parts = length (concat parts.*2).
Proof.
  unfold records_received.
  induction parts as [|[pk recs] parts IH]; simpl; [done|].
  rewrite length_app. by f_equal.
Qed.

(** A bulk write of one item is one physical call with that item. *)
Lemma batch_write_one item t :
  batch_write_to_dynamodb [item] t =
    (if is_ok (batch_write_item [item] t).1 then 1%nat else 0%nat,
     (batch_write_item [item] t).2).
Proof.
  unfold batch_write_to_dynamodb, with_batch_writer, try_finally, writer_exit.
  simpl. unfold bind, flush. simpl.
  by destruct (batch_write_item [item] t) as [[[]|e] t'].
Qed.

End one_item.

(** The sample store takes a single item that has a key. *)
Lemma sample_write_one (item : pydict) (k : string * string)
    (t : Consumer.table) :
  Sample.item_key item = Some k →
  Sample.batch_write_item [item] t = (Ok (), <[k := item]> t).
Proof.
  intros Hkey. unfold Sample.batch_write_item.
  replace (mapM Sample.item_key [item]) with (Some [k])
    by (simpl; by rewrite Hkey).
  by rewrite bool_decide_eq_true_2 by apply NoDup_singleton.
Qed.

(** C1, as the code has it. In a batch of two records of which one fails to
    decode and the other is enriched, the invocation raises, reporting at
    most 1 of 2, and the enriched event is still sent to the store, in one
    call: the table is left as that call leaves it. On the sample store an
    event with a key is stored. *)
Theorem one_failed_decode_raises_and_writes_the_other :
  (∀ (R : Runtime) (D : Consumer.DynamoDB)
     (parts : list (string * list pydict)) (t : Consumer.table)
     (ra rb item : pydict),
     concat parts.*2 = [ra; rb] →
     (Consumer.process_record ra = Some item ∧ decoded rb = None)
     ∨ (decoded ra = None ∧ Consumer.process_record rb = Some item) →
     Consumer.lambda_handler {| Consumer.records := Some parts |} t
     = (Raise (Exception (Consumer.failure_message
                 (if is_ok (Consumer.batch_write_item [item] t).1
                  then 1%nat else 0%nat) 2)),
        (Consumer.batch_write_item [item] t).2))
  ∧ (∀ (item : pydict) (k : string * string) (t : Consumer.table),
       Sample.item_key item = Some k →
       Sample.batch_write_item [item] t = (Ok (), <[k := item]> t)).
Proof.
  split.
  - intros R D parts t ra rb item Hbatch Hone.
    rewrite lambda_handler_records, records_received_length.
    unfold enriched. rewrite Hbatch.
    assert (omap Consumer.process_record [ra; rb] = [item]) as ->.
    { destruct Hone as [[Ha Hb]|[Ha Hb]];
        apply process_record_decoded_None in Hb || apply process_record_decoded_None in Ha;
        simpl; by rewrite Ha, Hb. }
    rewrite batch_write_one. simpl.
    by destruct (is_ok _).
  - apply sample_write_one.
Qed.

(** The goal of the unit tests next to a record that is not JSON. *)
Lemma one_failed_decode_raises_and_writes_the_other_witness :
  Sample.consume Sample.BROKEN_KAFKA_EVENT ∅
  = (Raise (Exception "Processed 1 out of 2 records successfully"),
     {[ ("match-123", "2023-08-15T14:30:00Z") := Sample.enrich Sample.goal_event ]}).
Proof.
  destruct one_failed_decode_raises_and_writes_the_other as [Hraise Hstore].
  assert (Sample.process_record (Sample.kafka_record 0 Sample.goal_value)
          = Some (Sample.enrich Sample.goal_event)) as Hgoal
    by (vm_compute; reflexivity).
  assert (decoded (H := Sample.runtime)
            (Sample.kafka_record 1 Sample.broken_value) = None) as Hbroken
    by (vm_compute; reflexivity).
  pose proof (Hraise Sample.runtime Sample.dynamodb
                [("football-events-0",
                  [Sample.kafka_record 0 Sample.goal_value;
                   Sample.kafka_record 1 Sample.broken_value])] ∅
                _ _ _ eq_refl (or_introl (conj Hgoal Hbroken))) as Hrun.
  pose proof (Hstore (Sample.enrich Sample.goal_event)
                ("match-123", "2023-08-15T14:30:00Z") ∅
                ltac:(vm_compute; reflexivity)) as Hput.
  change (Consumer.batch_write_item [Sample.enrich Sample.goal_event] ∅)
    with (Sample.batch_write_item [Sample.enrich Sample.goal_event] ∅) in Hrun.
  rewrite Hput in Hrun. exact Hrun.
Defined.

(** C1, as stated, fails: with the goal of the unit tests and a record that
    is not JSON, the decode of exactly one record fails and the invocation
    raises, but the table, empty before, holds the goal after. *)
Lemma one_failed_decode_is_not_all_or_nothing :
  let outcome := Sample.consume Sample.BROKEN_KAFKA_EVENT ∅ in
  is_Some (decoded (H := Sample.runtime) (Sample.kafka_record 0 Sample.goal_value))
  ∧ decoded (H := Sample.runtime) (Sample.kafka_record 1 Sample.broken_value)
    = None
  ∧ is_ok outcome.1 = false
  ∧ Sample.scan outcome.2 = [Sample.enrich Sample.goal_event]
  ∧ ¬ (length (Sample.scan outcome.2) = 0%nat).
Proof.
  simpl. split; [|split; [|split; [|split]]].
  - vm_compute. eauto.
  - vm_compute; reflexivity.
  - vm_compute; reflexivity.
  - vm_compute; reflexivity.
  - vm_compute. discriminate.
Qed.

(** * The bulk write *)

Section bulk_write.
Context `{Consumer.DynamoDB}.
Import Consumer.

Lemma chunks_concat buffer items :
  concat (chunks buffer items) = buffer ++ items.
Proof.
  revert buffer. induction items as [|item items IH]; intros buffer.
  - destruct buffer; simpl; by rewrite ?app_nil_r.
  - cbn [chunks].
    destruct (flush_amount <=? length (buffer ++ [item]))%nat;
      cbn [concat]; rewrite IH; by rewrite <- ?app_assoc.
Qed.

Lemma chunks_bounded buffer items :
  (length buffer < flush_amount)%nat →
  Forall (λ call, 0 < length call ≤ flush_amount)%nat (chunks buffer items).
Proof.
  revert buffer. induction items as [|item items IH]; intros buffer Hlen.
  - destruct buffer; constructor; [simpl in *; lia|constructor].
  - cbn [chunks].
    destruct (flush_amount <=? length (buffer ++ [item]))%nat eqn:Hfull.
    + constructor.
      * rewrite length_app in *. simpl. lia.
      * apply IH. unfold flush_amount. simpl. lia.
    + apply IH. by apply Nat.leb_gt in Hfull.
Qed.

Lemma try_finally_bind {S A B} (m : M S A) (k : A → M S B) (c : M S unit) w :
  try_finally (bind m k) c w =
    match m w with
    | (Ok a, w1) => try_finally (k a) c w1
    | (Raise e, w1) =>
        match c w1 with
        | (Ok _, w2) => (Raise e, w2)
        | (Raise e', w2) => (Raise e', w2)
        end
    end.
Proof. unfold try_finally, bind. by destruct (m w) as [[a|e] w1]. Qed.

Lemma writer_exit_empty t :
  writer_exit {| items_buffer := []; tbl := t |}
  = (Ok (), {| items_buffer := []; tbl := t |}).
Proof. reflexivity. Qed.

Lemma flush_while_empty fuel t :
  flush_while fuel {| items_buffer := []; tbl := t |}
  = (Ok (), {| items_buffer := []; tbl := t |}).
Proof. by destruct fuel. Qed.

Lemma flush_short buffer t :
  (length buffer ≤ flush_amount)%nat →
  flush {| items_buffer := buffer; tbl := t |} =
    ((batch_write_item buffer t).1,
     {| items_buffer := []; tbl := (batch_write_item buffer t).2 |}).
Proof.
  intros Hlen. unfold flush. simpl.
  rewrite take_ge, drop_ge by done.
  by destruct (batch_write_item buffer t).
Qed.

(** The writer, from a buffer that is not full, makes the calls of
    [chunks]: the loop of [put_item] and the flushes of [__exit__]. *)
Lemma with_writer_chunks items buffer t :
  (length buffer < flush_amount)%nat →
  (let '(r, w) :=
     try_finally (put_items items) writer_exit
       {| items_buffer := buffer; tbl := t |} in
   (r, tbl w))
  = write_chunks (chunks buffer items) t.
Proof.
  revert buffer t. induction items as [|item items IH]; intros buffer t Hlen.
  - simpl. unfold try_finally, ret, writer_exit. simpl.
    destruct buffer as [|b buffer]; [done|].
    cbn [length flush_while items_buffer write_chunks]. unfold bind, ret.
    rewrite flush_short by lia.
    destruct (batch_write_item (b :: buffer) t) as [[[]|e] t1]; simpl;
      by rewrite ?flush_while_empty.
  - cbn [put_items chunks]. rewrite try_finally_bind.
    unfold put_item. cbn [items_buffer tbl].
    destruct (flush_amount <=? length (buffer ++ [item]))%nat eqn:Hfull.
    + rewrite flush_short
        by (rewrite length_app; unfold flush_amount in *; simpl; lia).
      cbn [write_chunks]. unfold bind at 1.
      destruct (batch_write_item (buffer ++ [item]) t) as [[[]|e] t1];
        cbn [fst snd].
      * apply IH. unfold flush_amount. simpl. lia.
      * by rewrite writer_exit_empty.
    + apply IH. by apply Nat.leb_gt in Hfull.
Qed.

(** [batch_write_to_dynamodb] makes the calls of [chunks] and counts all
    items or none. *)
Lemma batch_write_chunks items t :
  batch_write_to_dynamodb items t =
    (if is_ok (write_chunks (chunks [] items) t).1
     then length items else 0%nat,
     (write_chunks (chunks [] items) t).2).
Proof.
  destruct items as [|item items]; [done|].
  unfold batch_write_to_dynamodb, with_batch_writer.
  pose proof (with_writer_chunks (item :: items) [] t) as Hcalls.
  destruct (try_finally _ _ _) as [r w].
  rewrite <- Hcalls by (unfold flush_amount; simpl; lia).
  by destruct r.
Qed.

End bulk_write.

(** C10. For every store and every list of items, the success count of
    [batch_write_to_dynamodb] is [len(items)] when all calls of the batched
    write complete, and 0 when one of them raises or the list is empty; it
    is never strictly between. The calls made before one that raises stay
    written: on the sample store, of 26 items of which the last is refused,
    25 are in the table and the count is 0. *)
Theorem batch_write_count_all_or_zero :
  (∀ (D : Consumer.DynamoDB) (items : list pydict) (t : Consumer.table),
     let written := write_chunks (chunks [] items) t in
     let count := (Consumer.batch_write_to_dynamodb items t).1 in
     (count = 0%nat ∨ count = length items)
     ∧ (is_ok written.1 = true → count = length items)
     ∧ (is_ok written.1 = false → count = 0%nat)
     ∧ (items = [] → count = 0%nat)
     ∧ (Consumer.batch_write_to_dynamodb items t).2 = written.2)
  ∧ (Sample.batch_write_to_dynamodb Sample.twenty_six_items ∅).1 = 0%nat
  ∧ size (Sample.batch_write_to_dynamodb Sample.twenty_six_items ∅).2 = 25%nat.
Proof.
  split; [|split; vm_compute; reflexivity].
  intros D items t written count. subst written count.
  rewrite batch_write_chunks. cbn [fst snd].
  destruct (is_ok _); repeat split; auto; try done.
  by intros ->.
Qed.

(** The count of the bulk write of the two records of the unit tests. *)
Lemma batch_write_count_all_or_zero_witness :
  (Sample.batch_write_to_dynamodb
     [Sample.enrich Sample.goal_event; Sample.enrich Sample.vague_event] ∅).1
  = 2%nat.
Proof.
  destruct batch_write_count_all_or_zero as [Hcount _].
  destruct (Hcount Sample.dynamodb
              [Sample.enrich Sample.goal_event;
               Sample.enrich Sample.vague_event] ∅)
    as (_ & Hall & _).
  apply Hall. vm_compute; reflexivity.
Defined.

(** * The store *)

Lemma table_wf_empty : table_wf ∅.
Proof. intros k item. by rewrite lookup_empty. Qed.

Lemma table_wf_insert t k item :
  table_wf t → Sample.item_key item = Some k → table_wf (<[k := item]> t).
Proof.
  intros Hwf Hkey k' item'. destruct (decide (k = k')) as [<-|Hne].
  - rewrite lookup_insert_eq. by intros [= <-].
  - rewrite lookup_insert_ne by done. apply Hwf.
Qed.

Lemma filter_none {A} (P : A → Prop) `{∀ x, Decision (P x)} (l : list A) :
  Forall (λ x, ¬ P x) l → filter P l = [].
Proof.
  induction 1 as [|x l Hx _ IH]; [done|].
  by rewrite filter_cons_False.
Qed.

(** In a well-formed table the items that carry a key are the one item
    stored under it. *)
Lemma items_with_key_lookup t k item :
  table_wf t → t !! k = Some item → Sample.items_with_key k t = [item].
Proof.
  intros Hwf Hlook. unfold Sample.items_with_key, Sample.scan.
  apply Permutation_singleton_r.
  rewrite <- (map_to_list_delete t k item Hlook).
  rewrite fmap_cons, filter_cons_True by (simpl; by apply Hwf).
  apply Permutation_skip.
  rewrite filter_none; [done|].
  apply Forall_fmap, Forall_forall. intros [k' item'] Hin. simpl.
  apply elem_of_map_to_list in Hin.
  destruct (decide (k = k')) as [<-|Hne].
  - by rewrite lookup_delete_eq in Hin.
  - rewrite lookup_delete_ne in Hin by done.
    rewrite (Hwf _ _ Hin). congruence.
Qed.

(** C5. On the sample store, whose key is [(match_id, event_timestamp)]:
    writing an item and writing it again both succeed, the second write
    leaves the table as the first left it, the table holds exactly one item
    with that key, and a write under a key that the table already holds
    does not add an item. *)
Theorem rewrite_same_key_is_overwrite (t : Consumer.table) (item : pydict)
    (k : string * string) :
  table_wf t →
  Sample.item_key item = Some k →
  let first := Sample.batch_write_to_dynamodb [item] t in
  let second := Sample.batch_write_to_dynamodb [item] first.2 in
  first.1 = 1%nat
  ∧ second.1 = 1%nat
  ∧ second.2 = first.2
  ∧ Sample.items_with_key k second.2 = [item]
  ∧ (is_Some (t !! k) → size first.2 = size t).
Proof.
  intros Hwf Hkey first second. subst first second.
  unfold Sample.batch_write_to_dynamodb.
  rewrite !batch_write_one.
  change (Consumer.batch_write_item [item]) with (Sample.batch_write_item [item]).
  rewrite (sample_write_one item k t Hkey). cbn [fst snd is_ok].
  rewrite (sample_write_one item k _ Hkey). cbn [fst snd is_ok].
  rewrite insert_insert_eq.
  split; [done|]. split; [done|]. split; [done|]. split.
  - apply items_with_key_lookup.
    + by apply table_wf_insert.
    + apply lookup_insert_eq.
  - intros [old Hold]. by apply map_size_insert_Some.
Qed.

(** The goal of the unit tests, delivered twice. *)
Lemma rewrite_same_key_is_overwrite_witness :
  Sample.items_with_key ("match-123", "2023-08-15T14:30:00Z")
    (Sample.batch_write_to_dynamodb [Sample.enrich Sample.goal_event]
       (Sample.batch_write_to_dynamodb [Sample.enrich Sample.goal_event] ∅).2).2
  = [Sample.enrich Sample.goal_event].
Proof.
  apply (rewrite_same_key_is_overwrite ∅ (Sample.enrich Sample.goal_event)
           ("match-123", "2023-08-15T14:30:00Z")).
  - apply table_wf_empty.
  - vm_compute; reflexivity.
Defined.

(** * Properties of the producer *)




Section provisioner.
Context `{Ingest.KafkaEnv}.
Import Ingest.

Lemma with_clients_same c : with_clients c (open_admin_clients c) = c.
Proof. by destruct c. Qed.

Lemma close_after_connect c :
  admin_close (with_clients c (S (open_admin_clients c))) = (Ok (), c).
Proof. unfold admin_close. simpl. by destruct c. Qed.

(** A creation request does not look at the clients. *)
Lemma admin_create_topics_clients name c n :
  admin_create_topics name (with_clients c n) =
    ((admin_create_topics name c).1,
     with_clients (admin_create_topics name c).2 n).
Proof.
  unfold admin_create_topics. simpl.
  destruct create_fault; [done|]. by destruct (bool_decide _).
Qed.

Lemma admin_create_topics_open name c :
  open_admin_clients (admin_create_topics name c).2 = open_admin_clients c.
Proof.
  unfold admin_create_topics.
  destruct create_fault; [done|]. by destruct (bool_decide _).
Qed.

(** A creation request that raises leaves the cluster as it was. *)
Lemma admin_create_topics_raise name c e :
  (admin_create_topics name c).1 = Raise e → (admin_create_topics name c).2 = c.
Proof.
  unfold admin_create_topics.
  destruct create_fault; [done|]. by destruct (bool_decide _).
Qed.

(** [ensure_topic_exists], case by case. *)
Lemma ensure_topic_exists_unfold bootstrap_servers topic_name c :
  ensure_topic_exists bootstrap_servers topic_name c =
    match admin_connect_fault with
    | Some e => (Raise e, c)
    | None =>
        match list_topics (topics c) with
        | Raise TopicAlreadyExistsError => (Ok (), c)
        | Raise e => (Raise e, c)
        | Ok listed =>
            if bool_decide (topic_name ∉ listed) then
              match admin_create_topics topic_name c with
              | (Ok _, c') => (Ok (), c')
              | (Raise TopicAlreadyExistsError, c') => (Ok (), c')
              | (Raise e, c') => (Raise e, c')
              end
            else (Ok (), c)
        end
    end.
Proof.
  unfold ensure_topic_exists, try_except, bind, KafkaAdminClient.
  destruct admin_connect_fault as [e|]; [done|].
  unfold try_finally, admin_list_topics. cbn [topics with_clients].
  destruct (list_topics (topics c)) as [listed|e].
  - destruct (bool_decide (topic_name ∉ listed)).
    + rewrite admin_create_topics_clients.
      pose proof (admin_create_topics_open topic_name c) as Hopen.
      destruct (admin_create_topics topic_name c) as [[[]|e] c'];
        cbn [fst snd] in *.
      * unfold admin_close. simpl. rewrite <- Hopen. by destruct c'.
      * destruct e; unfold ret, raise, admin_close; simpl; rewrite <- Hopen;
          by destruct c'.
    + unfold ret. by rewrite close_after_connect.
  - destruct e; unfold ret, raise; by rewrite close_after_connect.
Qed.

End provisioner.

(** C9. [ensure_topic_exists] returns, and leaves the cluster as it was,
    when the listing shows the topic, and when the listing does not show it
    and the creation raises [TopicAlreadyExistsError], as it does for a
    topic that the cluster has. What it raises is a failure of the
    connection, of the listing or of the creation, and of the last two never
    [TopicAlreadyExistsError]; the cluster is as it was then, too. Every
    such failure is raised: a failure of the connection whatever it is, and
    a failure of the listing or of the creation of a topic that is not
    listed unless it is [TopicAlreadyExistsError]. *)
Theorem ensure_topic_exists_tolerates_existing `{Ingest.KafkaEnv}
    (bootstrap_servers : json) (topic_name : string) (c : Ingest.cluster) :
  (∀ listed,
     Ingest.admin_connect_fault = None →
     Ingest.list_topics (Ingest.topics c) = Ok listed →
     topic_name ∈ listed →
     Ingest.ensure_topic_exists bootstrap_servers topic_name c = (Ok (), c))
  ∧ (∀ listed,
       Ingest.admin_connect_fault = None →
       Ingest.list_topics (Ingest.topics c) = Ok listed →
       topic_name ∉ listed →
       (Ingest.admin_create_topics topic_name c).1
       = Raise TopicAlreadyExistsError →
       Ingest.ensure_topic_exists bootstrap_servers topic_name c = (Ok (), c))
  ∧ (Ingest.create_fault = None →
     topic_name ∈ Ingest.topics c →
     (Ingest.admin_create_topics topic_name c).1
     = Raise TopicAlreadyExistsError)
  ∧ (∀ e c',
       Ingest.ensure_topic_exists bootstrap_servers topic_name c
       = (Raise e, c') →
       c' = c
       ∧ (Ingest.admin_connect_fault = Some e
          ∨ (e ≠ TopicAlreadyExistsError
             ∧ (Ingest.list_topics (Ingest.topics c) = Raise e
                ∨ ∃ listed,
                    Ingest.list_topics (Ingest.topics c) = Ok listed
                    ∧ (topic_name ∉ listed)
                    ∧ (Ingest.admin_create_topics topic_name c).1 = Raise e))))
  ∧ (∀ e,
       Ingest.admin_connect_fault = Some e →
       Ingest.ensure_topic_exists bootstrap_servers topic_name c
       = (Raise e, c))
  ∧ (∀ e,
       Ingest.admin_connect_fault = None →
       Ingest.list_topics (Ingest.topics c) = Raise e →
       e ≠ TopicAlreadyExistsError →
       Ingest.ensure_topic_exists bootstrap_servers topic_name c
       = (Raise e, c))
  ∧ (∀ e listed,
       Ingest.admin_connect_fault = None →
       Ingest.list_topics (Ingest.topics c) = Ok listed →
       topic_name ∉ listed →
       (Ingest.admin_create_topics topic_name c).1 = Raise e →
       e ≠ TopicAlreadyExistsError →
       Ingest.ensure_topic_exists bootstrap_servers topic_name c
       = (Raise e, c)).
Proof.
  rewrite ensure_topic_exists_unfold.
  split; [|split; [|split; [|split; [|split; [|split]]]]].
  - intros listed -> -> Hin. by rewrite bool_decide_eq_false_2 by auto.
  - intros listed -> -> Hnotin Hcreate.
    rewrite bool_decide_eq_true_2 by done.
    pose proof (admin_create_topics_raise _ _ _ Hcreate) as Hsame.
    destruct (Ingest.admin_create_topics topic_name c) as [r c'].
    simpl in *. by subst.
  - intros Hfault Hin. unfold Ingest.admin_create_topics.
    by rewrite Hfault, bool_decide_eq_true_2.
  - intros e c'.
    destruct Ingest.admin_connect_fault as [e0|];
      [intros [= -> ->]; split; [done|by left]|].
    destruct (Ingest.list_topics (Ingest.topics c)) as [listed|e0].
    + case_bool_decide as Hnotin; [|done].
      pose proof (admin_create_topics_raise topic_name c) as Hsame.
      destruct (Ingest.admin_create_topics topic_name c) as [[[]|e0] c''];
        [done|].
      specialize (Hsame e0 eq_refl). simpl in Hsame. subst c''.
      destruct e0; intros [= <- <-]; (split; [done|]); right;
        (split; [done|]); right; exists listed; done.
    + destruct e0; intros [= <- <-]; (split; [done|]); right;
        (split; [done|]); by left.
  - by intros e ->.
  - intros e -> -> Hne. by destruct e.
  - intros e listed -> -> Hnotin Hcreate Hne.
    rewrite bool_decide_eq_true_2 by done.
    pose proof (admin_create_topics_raise _ _ _ Hcreate) as Hsame.
    destruct (Ingest.admin_create_topics topic_name c) as [r c'].
    simpl in *. subst. by destruct e.
Qed.

(** The topic of the unit tests, already in the cluster: with a listing
    that shows it, and with one that was taken before it existed. Then a
    cluster without the topic, where the connection, the listing or the
    creation fails: the failure is raised. *)
Lemma ensure_topic_exists_tolerates_existing_witness :
  @Ingest.ensure_topic_exists (Sample.kafka Sample.fresh_listing)
    (JStr "b-1.msk:9098") "football-events"
    (Sample.cluster_with ["football-events"])
  = (Ok (), Sample.cluster_with ["football-events"])
  ∧ @Ingest.ensure_topic_exists (Sample.kafka Sample.stale_listing)
      (JStr "b-1.msk:9098") "football-events"
      (Sample.cluster_with ["football-events"])
    = (Ok (), Sample.cluster_with ["football-events"])
  ∧ @Ingest.ensure_topic_exists
      (Sample.kafka_faulty (Some (KafkaError "NoBrokersAvailable"))
         (Ok []) None)
      (JStr "b-1.msk:9098") "football-events" (Sample.cluster_with [])
    = (Raise (KafkaError "NoBrokersAvailable"), Sample.cluster_with [])
  ∧ @Ingest.ensure_topic_exists
      (Sample.kafka_faulty None (Raise (KafkaError "RequestTimedOut")) None)
      (JStr "b-1.msk:9098") "football-events" (Sample.cluster_with [])
    = (Raise (KafkaError "RequestTimedOut"), Sample.cluster_with [])
  ∧ @Ingest.ensure_topic_exists
      (Sample.kafka_faulty None (Ok [])
         (Some (KafkaError "InvalidReplicationFactor")))
      (JStr "b-1.msk:9098") "football-events" (Sample.cluster_with [])
    = (Raise (KafkaError "InvalidReplicationFactor"), Sample.cluster_with []).
Proof.
  split; [|split; [|split; [|split]]].
  - destruct (ensure_topic_exists_tolerates_existing
                (H := Sample.kafka Sample.fresh_listing)
                (JStr "b-1.msk:9098") "football-events"
                (Sample.cluster_with ["football-events"])) as [Hlisted _].
    apply (Hlisted ["football-events"]); [reflexivity|reflexivity|].
    apply list_elem_of_here.
  - destruct (ensure_topic_exists_tolerates_existing
                (H := Sample.kafka Sample.stale_listing)
                (JStr "b-1.msk:9098") "football-events"
                (Sample.cluster_with ["football-events"])) as (_ & Hrace & _).
    apply (Hrace []); [reflexivity|reflexivity| |vm_compute; reflexivity].
    apply not_elem_of_nil.
  - destruct (ensure_topic_exists_tolerates_existing
                (H := Sample.kafka_faulty
                        (Some (KafkaError "NoBrokersAvailable")) (Ok []) None)
                (JStr "b-1.msk:9098") "football-events"
                (Sample.cluster_with [])) as (_ & _ & _ & _ & Hconnect & _).
    apply Hconnect. reflexivity.
  - destruct (ensure_topic_exists_tolerates_existing
                (H := Sample.kafka_faulty None
                        (Raise (KafkaError "RequestTimedOut")) None)
                (JStr "b-1.msk:9098") "football-events"
                (Sample.cluster_with []))
      as (_ & _ & _ & _ & _ & Hlisting & _).
    apply Hlisting; [reflexivity|reflexivity|discriminate].
  - destruct (ensure_topic_exists_tolerates_existing
                (H := Sample.kafka_faulty None (Ok [])
                        (Some (KafkaError "InvalidReplicationFactor")))
                (JStr "b-1.msk:9098") "football-events"
                (Sample.cluster_with []))
      as (_ & _ & _ & _ & _ & _ & Hcreate).
    apply (Hcreate _ []);
      [reflexivity|reflexivity|apply not_elem_of_nil|vm_compute; reflexivity
      |discriminate].
Defined.

(** * The unit tests of the repository, on the sample runtime and store *)

(** [test_derive_season] *)
Example test_derive_season :
  Sample.derive_season (JStr "2023-08-15T14:30:00Z") = "2023/2024"
  ∧ Sample.derive_season (JStr "2023-01-15T14:30:00Z") = "2022/2023"
  ∧ Sample.derive_season (JStr "2023-07-31T23:59:59Z") = "2022/2023"
  ∧ Sample.derive_season (JStr "2023-08-01T00:00:00Z") = "2023/2024".
Proof. repeat split; vm_compute; reflexivity. Qed.

(** [test_process_record] *)
Example test_process_record :
  match Sample.process_record Sample.plain_goal_record with
  | Some result =>
      result !! "match_id" = Some (JStr "match-123")
      ∧ result !! "event_type" = Some (JStr "goal")
      ∧ result !! "season" = Some (JStr "2023/2024")
      ∧ result !! "event_timestamp" = Some (JStr "2023-08-15T14:30:00Z")
      ∧ result !! "event_type_timestamp"
        = Some (JStr "goal#2023-08-15T14:30:00Z")
  | None => False
  end.
Proof. vm_compute. repeat split. Qed.

(** [test_lambda_handler_success] *)
Example test_lambda_handler_success :
  let '(response, t) := Sample.consume Sample.SAMPLE_KAFKA_EVENT ∅ in
  response
  = Ok {| statusCode := 200;
          body := JObj {[ "message" :=
                    JStr "2 records processed successfully" ]} |}
  ∧ length (Sample.scan t) = 2%nat
  ∧ match t !! ("match-123", "2023-08-15T14:30:00Z") with
    | Some goal_event =>
        goal_event !! "event_type" = Some (JStr "goal")
        ∧ goal_event !! "season" = Some (JStr "2023/2024")
        ∧ goal_event !! "event_type_timestamp"
          = Some (JStr "goal#2023-08-15T14:30:00Z")
    | None => False
    end
  ∧ match t !! ("match-123", "2023-08-15T14:35:00Z") with
    | Some card_event =>
        card_event !! "event_type" = Some (JStr "card")
        ∧ card_event !! "season" = Some (JStr "2023/2024")
        ∧ card_event !! "event_type_timestamp"
          = Some (JStr "card#2023-08-15T14:35:00Z")
    | None => False
    end.
Proof. vm_compute. repeat split. Qed.

(** [test_lambda_handler_january_event] *)
Example test_lambda_handler_january_event :
  let '(response, t) := Sample.consume Sample.SAMPLE_JANUARY_EVENT ∅ in
  response
  = Ok {| statusCode := 200;
          body := JObj {[ "message" :=
                    JStr "1 records processed successfully" ]} |}
  ∧ match Sample.scan t with
    | [item] => item !! "season" = Some (JStr "2022/2023")
    | _ => False
    end.
Proof. vm_compute. repeat split. Qed.

(** [test_lambda_handler_with_processing_error]: when no record is
    processed, the handler raises and nothing is written. *)
Example test_lambda_handler_with_processing_error :
  Sample.consume Sample.VALUELESS_KAFKA_EVENT ∅
  = (Raise (Exception "Processed 0 out of 2 records successfully"), ∅).
Proof. vm_compute; reflexivity. Qed.

(** Two producers provision the topic of a cluster that has none: the
    second lists before the first creates and creates after. Both return,
    and the cluster has the topic once. *)
Example provisioning_race :
  let first :=
    @Ingest.ensure_topic_exists (Sample.kafka Sample.fresh_listing)
      (JStr "b-1.msk:9098") "football-events" (Sample.cluster_with []) in
  let second :=
    @Ingest.ensure_topic_exists (Sample.kafka Sample.stale_listing)
      (JStr "b-1.msk:9098") "football-events" first.2 in
  first = (Ok (), Sample.cluster_with ["football-events"])
  ∧ second = (Ok (), Sample.cluster_with ["football-events"]).
Proof. split; vm_compute; reflexivity. Qed.

(** * The scenarios of the specification, on the sample runtime *)

(** An event without [event_type] is enriched with [unknown] in its
    composite key, and gets no [event_type]. *)
Example untyped_event_reads_unknown :
  match Sample.process_record (Sample.kafka_record 0 Sample.untyped_value) with
  | Some item =>
      item !! "event_type" = None
      ∧ item !! "event_type_timestamp"
        = Some (JStr "unknown#2023-08-15T14:30:00Z")
  | None => False
  end.
Proof. vm_compute. repeat split. Qed.

(** The goal is submitted to a cluster without topic: the producer creates
    the topic, publishes the event under its [match_id] with a generated
    [event_id], and answers 200. *)
Example submit_goal :
  let '(answer, c) := Sample.produce Sample.goal_submission (Sample.cluster_with []) in
  answer
  = Ok {| statusCode := 200;
          body := JObj (<["message" := JStr "Event published successfully"]>
                          {[ "event_id" :=
                               JStr "123e4567-e89b-42d3-a456-426614174000" ]}) |}
  ∧ Ingest.topics c = ["football-events"]
  ∧ Ingest.open_admin_clients c = 0%nat
  ∧ Ingest.published c
    = [("football-events", JStr "match-123",
        <["event_id" := JStr "123e4567-e89b-42d3-a456-426614174000"]>
          Sample.goal_event)].
Proof. vm_compute. repeat split. Qed.

(** A submission without body is answered with 400. *)
Example submit_without_body :
  Sample.produce Sample.bodiless_submission (Sample.cluster_with [])
  = (Ok {| statusCode := 400;
           body := JObj {[ "message" := JStr "Missing request body" ]} |},
     Sample.cluster_with []).
Proof. vm_compute. reflexivity. Qed.

(** * Further properties of the consumer *)

(** * More on the season *)

Lemma replace_Z_app (s1 s2 : string) :
  replace_Z (s1 +:+ s2) = replace_Z s1 +:+ replace_Z s2.
Proof.
  induction s1 as [|c s1 IH]; [done|]. simpl.
  destruct (Ascii.eqb c "Z"); rewrite IH; [|done].
  reflexivity.
Qed.

(** X1. A timestamp that ends in [Z] and the same timestamp with the offset
    [+00:00] written out have the same season, with any parser. *)
Theorem derive_season_Z_is_utc `{Runtime} (s : string) :
  Consumer.derive_season (JStr (s +:+ "Z"))
  = Consumer.derive_season (JStr (s +:+ "+00:00")).
Proof.
  unfold Consumer.derive_season. by rewrite !replace_Z_app.
Qed.

(** X2. A season runs from August to July: a timestamp of August to
    December of one year and a timestamp of January to July of the next
    year have the same season. *)
Theorem season_spans_august_to_july `{Runtime} (s1 s2 : string)
    (ts1 ts2 : datetime) :
  fromisoformat (replace_Z s1) = Some ts1 →
  fromisoformat (replace_Z s2) = Some ts2 →
  8 ≤ month ts1 →
  month ts2 < 8 →
  year ts2 = year ts1 + 1 →
  Consumer.derive_season (JStr s1) = Consumer.derive_season (JStr s2).
Proof.
  intros Hp1 Hp2 Hm1 Hm2 Hy.
  rewrite (derive_season_parsed s1 ts1 Hp1), (derive_season_parsed s2 ts2 Hp2).
  replace (month ts1 <? 8) with false by (symmetry; apply Z.ltb_ge; lia).
  replace (month ts2 <? 8) with true by (symmetry; apply Z.ltb_lt; lia).
  rewrite Hy. by replace (year ts1 + 1 - 1) with (year ts1) by lia.
Qed.

Lemma season_spans_august_to_july_witness :
  Sample.derive_season (JStr "2023-08-01T00:00:00Z")
  = Sample.derive_season (JStr "2024-07-31T23:59:59Z").
Proof.
  apply (season_spans_august_to_july (H := Sample.runtime) _ _
           {| year := 2023; month := 8; day := 1; hour := 0; minute := 0;
              second := 0; microsecond := 0; tzoffset := Some 0 |}
           {| year := 2024; month := 7; day := 31; hour := 23; minute := 59;
              second := 59; microsecond := 0; tzoffset := Some 0 |});
    try reflexivity; simpl; lia.
Defined.

(** * More on the enrichment *)

Section enrichment.
Context `{Runtime}.

Lemma backfilled_has_event_timestamp (event : pydict) :
  is_Some (event !! "timestamp") → is_Some (backfilled event !! "event_timestamp").
Proof.
  intros [ts Hts]. rewrite backfilled_event_timestamp, Hts.
  destruct (event !! "event_timestamp"); eauto.
Qed.

Lemma backfilled_season (event : pydict) :
  backfilled event !! "season"
  = Some (JStr (Consumer.derive_season
                  (dict_get event "timestamp" (JStr EmptyString)))).
Proof.
  unfold backfilled.
  destruct (_ && _); rewrite ?lookup_insert_ne by done; apply lookup_insert_eq.
Qed.

Lemma backfilled_enrich (event : pydict) :
  backfilled (Consumer.enrich event) = Consumer.enrich event.
Proof.
  unfold backfilled at 1.
  assert (dict_get (Consumer.enrich event) "timestamp" (JStr EmptyString)
          = dict_get event "timestamp" (JStr EmptyString)) as ->.
  { unfold dict_get. by rewrite enrich_lookup. }
  rewrite (insert_id (Consumer.enrich event)) by apply enrich_season.
  destruct (dict_has (Consumer.enrich event) "timestamp") eqn:Hts; [|done].
  apply dict_has_true in Hts. rewrite enrich_lookup in Hts by done.
  apply backfilled_has_event_timestamp in Hts.
  rewrite <- enrich_event_timestamp in Hts. apply dict_has_true in Hts.
  by rewrite Hts.
Qed.

Lemma enrich_composite (event : pydict) :
  Consumer.enrich event !! "event_type_timestamp"
  = Some (JStr (format_value
                  (dict_get (Consumer.enrich event) "event_type"
                     (JStr "unknown"))
                +:+ "#"
                +:+ format_value
                      (dict_get (Consumer.enrich event) "event_timestamp"
                         (JStr EmptyString)))).
Proof.
  unfold dict_get at 1 2.
  rewrite enrich_event_timestamp, (enrich_lookup event "event_type") by done.
  rewrite enrich_unfold at 1. by rewrite lookup_insert_eq.
Qed.

End enrichment.

(** X3. Enrichment leaves every field of the decoded event as it is, except
    [season], [event_timestamp] and [event_type_timestamp]; [season] is the
    derived one also when the event came with a season of its own. *)
Theorem enrich_keeps_client_fields `{Runtime} (event : pydict) :
  (∀ k, k ≠ "season" → k ≠ "event_timestamp" → k ≠ "event_type_timestamp" →
        Consumer.enrich event !! k = event !! k)
  ∧ Consumer.enrich event !! "season"
    = Some (JStr (Consumer.derive_season
                    (dict_get event "timestamp" (JStr EmptyString)))).
Proof. split; [apply enrich_lookup | apply enrich_season]. Qed.

Lemma enrich_keeps_client_fields_witness :
  Sample.enrich Sample.goal_event !! "player_id" = Some (JStr "player-456").
Proof.
  destruct (enrich_keeps_client_fields (H := Sample.runtime) Sample.goal_event)
    as [Hkeep _].
  unfold Sample.enrich. rewrite Hkeep by done. reflexivity.
Defined.

(** X4. Enrichment is idempotent: enriching an event that is already
    enriched changes nothing. *)
Theorem enrich_idempotent `{Runtime} (event : pydict) :
  Consumer.enrich (Consumer.enrich event) = Consumer.enrich event.
Proof.
  rewrite (enrich_unfold (Consumer.enrich event)), backfilled_enrich.
  apply insert_id. apply enrich_composite.
Qed.

(** X6. The enriched event has the sort key [event_timestamp] exactly when
    the decoded event has [timestamp] or [event_timestamp]. *)
Theorem sort_key_iff_timestamp `{Runtime} (event : pydict) :
  is_Some (Consumer.enrich event !! "event_timestamp")
  ↔ is_Some (event !! "timestamp") ∨ is_Some (event !! "event_timestamp").
Proof.
  rewrite enrich_event_timestamp, backfilled_event_timestamp.
  destruct (event !! "event_timestamp") as [v|].
  - split; [intros _; right; eauto | eauto].
  - split; [by left|]. by intros [?|[? [=]]].
Qed.

Section more_handler.
Context `{Runtime} `{Consumer.DynamoDB}.

Lemma omap_length_le {A B} (f : A → option B) (l : list A) :
  (length (omap f l) ≤ length l)%nat.
Proof.
  induction l as [|x l IH]; csimpl; [done|].
  destruct (f x); csimpl; lia.
Qed.

Lemma omap_length_lt {A B} (f : A → option B) (l : list A) (x : A) :
  x ∈ l → f x = None → (length (omap f l) < length l)%nat.
Proof.
  induction 1 as [x l|x y l Hin IH]; intros Hx; csimpl.
  - rewrite Hx. pose proof (omap_length_le f l). lia.
  - specialize (IH Hx). destruct (f y); csimpl; lia.
Qed.

Lemma enriched_length_le parts :
  (length (enriched parts) ≤ records_received parts)%nat.
Proof. rewrite records_received_length. apply omap_length_le. Qed.

Lemma batch_write_count_le items t :
  ((Consumer.batch_write_to_dynamodb items t).1 ≤ length items)%nat.
Proof.
  rewrite batch_write_chunks. simpl. destruct (is_ok _); lia.
Qed.

Lemma records_received_nil (parts : list (string * list pydict)) :
  (∀ pk recs, (pk, recs) ∈ parts → recs = []) → concat parts.*2 = [].
Proof.
  induction parts as [|[pk recs] parts IH]; intros Hempty; simpl; [done|].
  rewrite (Hempty pk recs) by apply list_elem_of_here. simpl.
  apply IH. intros pk' recs' Hin. eapply Hempty. by apply list_elem_of_further.
Qed.

End more_handler.

(** X7. An invocation that carries no record (no ['records'] field, an
    empty mapping, or partitions that are all empty) is acknowledged with
    status 200 and [0 records processed successfully]; the store is not
    called. *)
Theorem no_record_is_acknowledged `{Runtime} `{Consumer.DynamoDB}
    (event : Consumer.kafka_event) (t : Consumer.table) :
  (Consumer.records event = None
   ∨ ∃ parts, Consumer.records event = Some parts
              ∧ ∀ pk recs, (pk, recs) ∈ parts → recs = []) →
  Consumer.lambda_handler event t
  = (Ok {| statusCode := 200;
           body := JObj {[ "message" :=
                     JStr "0 records processed successfully" ]} |}, t).
Proof.
  destruct event as [recs]. simpl. intros [->|(parts & -> & Hempty)]; [done|].
  rewrite lambda_handler_records, records_received_length.
  unfold enriched. by rewrite (records_received_nil parts Hempty).
Qed.

Lemma no_record_is_acknowledged_witness :
  is_ok (Sample.consume
           {| Consumer.records := Some [("football-events-0", []);
                                         ("football-events-1", [])] |} ∅).1
  = true.
Proof.
  unfold Sample.consume.
  rewrite (no_record_is_acknowledged (H := Sample.runtime)
             (H0 := Sample.dynamodb)); [reflexivity|].
  right. eexists. split; [reflexivity|].
  intros pk recs Hin.
  apply elem_of_cons in Hin as [Heq|Hin]; [by injection Heq|].
  apply elem_of_cons in Hin as [Heq|Hin]; [by injection Heq|].
  by apply elem_of_nil in Hin.
Defined.

(** X8. When [process_record] drops a record of the batch, the invocation
    raises, whatever the store does with the other records; these are still
    sent to the store. *)
Theorem dropped_record_raises `{Runtime} `{Consumer.DynamoDB}
    (parts : list (string * list pydict)) (pk : string)
    (recs : list pydict) (record : pydict) (t : Consumer.table) :
  (pk, recs) ∈ parts →
  record ∈ recs →
  Consumer.process_record record = None →
  ∃ success_count,
    (success_count < records_received parts)%nat
    ∧ Consumer.lambda_handler {| Consumer.records := Some parts |} t
      = (Raise (Exception (Consumer.failure_message success_count
                             (records_received parts))),
         (Consumer.batch_write_to_dynamodb (enriched parts) t).2).
Proof.
  intros Hpart Hrec Hdrop.
  assert (length (enriched parts) < records_received parts)%nat as Hlt.
  { rewrite records_received_length. eapply omap_length_lt; [|done].
    apply list_elem_of_In, in_concat. exists recs.
    split; [|by apply list_elem_of_In].
    apply list_elem_of_In, list_elem_of_fmap. by exists (pk, recs). }
  pose proof (batch_write_count_le (enriched parts) t) as Hle.
  rewrite lambda_handler_records.
  destruct (Consumer.batch_write_to_dynamodb (enriched parts) t) as [n t'].
  simpl in *. exists n. split; [lia|].
  rewrite bool_decide_eq_true_2 by lia. done.
Qed.

Lemma dropped_record_raises_witness :
  is_ok (Sample.consume Sample.BROKEN_KAFKA_EVENT ∅).1 = false.
Proof.
  destruct (dropped_record_raises (H := Sample.runtime) (H0 := Sample.dynamodb)
              [("football-events-0",
                [Sample.kafka_record 0 Sample.goal_value;
                 Sample.kafka_record 1 Sample.broken_value])]
              "football-events-0"
              [Sample.kafka_record 0 Sample.goal_value;
               Sample.kafka_record 1 Sample.broken_value]
              (Sample.kafka_record 1 Sample.broken_value) ∅)
    as (n & _ & Hrun).
  - apply list_elem_of_here.
  - apply list_elem_of_further, list_elem_of_here.
  - vm_compute; reflexivity.
  - unfold Sample.consume, Sample.BROKEN_KAFKA_EVENT. by rewrite Hrun.
Defined.

(** X9. When every record of a batch that is not empty is dropped, the
    invocation raises with [Processed 0 out of n] and the store is not
    called. *)
Theorem all_dropped_writes_nothing `{Runtime} `{Consumer.DynamoDB}
    (parts : list (string * list pydict)) (t : Consumer.table) :
  (0 < records_received parts)%nat →
  (∀ pk recs record, (pk, recs) ∈ parts → record ∈ recs →
                     Consumer.process_record record = None) →
  Consumer.lambda_handler {| Consumer.records := Some parts |} t
  = (Raise (Exception (Consumer.failure_message 0 (records_received parts))),
     t).
Proof.
  intros Hsome Hdrop.
  assert (enriched parts = []) as Hnone.
  { unfold enriched. apply elem_of_nil_inv. intros item Hin.
    apply list_elem_of_omap in Hin as (record & Hin & Hitem).
    apply list_elem_of_In, in_concat in Hin as (recs & Hrecs & Hin).
    apply list_elem_of_In, list_elem_of_fmap in Hrecs as ([pk recs'] & -> & Hpart).
    apply list_elem_of_In in Hin.
    by rewrite (Hdrop pk recs' record Hpart Hin) in Hitem. }
  rewrite lambda_handler_records, Hnone. simpl.
  rewrite bool_decide_eq_true_2 by lia. done.
Qed.

Lemma all_dropped_writes_nothing_witness :
  Sample.consume Sample.VALUELESS_KAFKA_EVENT ∅
  = (Raise (Exception "Processed 0 out of 2 records successfully"), ∅).
Proof.
  unfold Sample.consume, Sample.VALUELESS_KAFKA_EVENT.
  rewrite (all_dropped_writes_nothing (H := Sample.runtime)
             (H0 := Sample.dynamodb)).
  - reflexivity.
  - vm_compute. lia.
  - intros pk recs record Hpart Hrec.
    apply elem_of_cons in Hpart as [Heq|Hpart];
      [|by apply elem_of_nil in Hpart].
    injection Heq as _ ->.
    apply elem_of_cons in Hrec as [->|Hrec]; [vm_compute; reflexivity|].
    apply elem_of_cons in Hrec as [->|Hrec]; [vm_compute; reflexivity|].
    by apply elem_of_nil in Hrec.
Defined.

(** X10. The outcome of an invocation does not depend on how the records
    are grouped into partitions, only on the records in the order in which
    the handler meets them. *)
Theorem grouping_is_immaterial `{Runtime} `{Consumer.DynamoDB}
    (parts parts' : list (string * list pydict)) (t : Consumer.table) :
  concat parts.*2 = concat parts'.*2 →
  Consumer.lambda_handler {| Consumer.records := Some parts |} t
  = Consumer.lambda_handler {| Consumer.records := Some parts' |} t.
Proof.
  intros Hsame. rewrite !lambda_handler_records, !records_received_length.
  unfold enriched. by rewrite Hsame.
Qed.

Lemma grouping_is_immaterial_witness :
  Sample.consume Sample.SAMPLE_KAFKA_EVENT ∅
  = Sample.consume
      {| Consumer.records :=
           Some [("football-events-0", [Sample.kafka_record 0 Sample.goal_value]);
                 ("football-events-1", [Sample.kafka_record 1 Sample.card_value])] |}
      ∅.
Proof.
  apply (grouping_is_immaterial (H := Sample.runtime) (H0 := Sample.dynamodb)).
  reflexivity.
Defined.

Lemma chunks_full (buffer items : list pydict) (i : nat) (call : list pydict) :
  (length buffer < Consumer.flush_amount)%nat →
  chunks buffer items !! i = Some call →
  (S i < length (chunks buffer items))%nat →
  length call = Consumer.flush_amount.
Proof.
  revert buffer i. induction items as [|item items IH]; intros buffer i Hlen.
  - destruct buffer; simpl; intros _ Hlast; lia.
  - cbn [chunks].
    destruct (Consumer.flush_amount <=? length (buffer ++ [item]))%nat eqn:Hfull.
    + apply Nat.leb_le in Hfull. destruct i as [|i]; simpl.
      * intros [= <-] _. rewrite length_app in *. simpl in *. lia.
      * intros Hcall Hlast. apply (IH [] i); [|done|lia].
        unfold Consumer.flush_amount. simpl. lia.
    + apply Nat.leb_gt in Hfull. by apply IH.
Qed.

(** X11. The bulk write sends the items in their order, each one once, in
    calls of exactly 25 items, except the last call, which has between 1
    and 25; it stops at the first call that raises. *)
Theorem bulk_write_calls `{Consumer.DynamoDB} (items : list pydict)
    (t : Consumer.table) :
  let calls := chunks [] items in
  concat calls = items
  ∧ Forall (λ call, 0 < length call ≤ Consumer.flush_amount)%nat calls
  ∧ (∀ i call, calls !! i = Some call → (S i < length calls)%nat →
               length call = Consumer.flush_amount)
  ∧ (Consumer.batch_write_to_dynamodb items t).2 = (write_chunks calls t).2.
Proof.
  intros calls. subst calls. split; [apply chunks_concat|].
  split; [apply chunks_bounded; unfold Consumer.flush_amount; simpl; lia|].
  split.
  - intros i call. apply chunks_full. unfold Consumer.flush_amount. simpl. lia.
  - by rewrite batch_write_chunks.
Qed.

Lemma bulk_write_calls_witness :
  concat (chunks [] Sample.twenty_six_items) = Sample.twenty_six_items.
Proof. apply (bulk_write_calls (H := Sample.dynamodb) _ ∅). Defined.

(** * Redelivery on the sample store *)

Lemma sample_puts (kvs : list ((string * string) * pydict)) (t : Consumer.table) :
  foldl Sample.put t kvs = list_to_map (reverse kvs) ∪ t.
Proof.
  induction kvs as [|[k v] kvs IH] using rev_ind.
  - simpl. by rewrite (left_id_L ∅ (∪)).
  - rewrite foldl_app, reverse_app. simpl. rewrite IH.
    unfold Sample.put. simpl. by rewrite insert_union_l.
Qed.

Lemma sample_puts_twice (kvs : list ((string * string) * pydict))
    (t : Consumer.table) :
  foldl Sample.put (foldl Sample.put t kvs) kvs = foldl Sample.put t kvs.
Proof.
  rewrite !sample_puts.
  by rewrite (assoc_L (∪)), (idemp_L (∪)).
Qed.

(** Whether the sample store takes a call does not depend on the table. *)
Lemma sample_call_ok (items : list pydict) (t t' : Consumer.table) :
  Sample.batch_write_item items t = (Ok (), t') →
  ∃ kvs, ∀ t0, Sample.batch_write_item items t0 = (Ok (), foldl Sample.put t0 kvs).
Proof.
  unfold Sample.batch_write_item.
  destruct (mapM Sample.item_key items) as [keys|]; [|done].
  case_bool_decide; [|done]. intros _. by exists (zip keys items).
Qed.

Lemma sample_calls_ok (calls : list (list pydict)) (t t' : Consumer.table) :
  write_chunks (H := Sample.dynamodb) calls t = (Ok (), t') →
  ∃ kvs, ∀ t0, write_chunks (H := Sample.dynamodb) calls t0
               = (Ok (), foldl Sample.put t0 kvs).
Proof.
  revert t. induction calls as [|call calls IH]; intros t; simpl.
  - intros _. by exists [].
  - unfold bind.
    change (Consumer.batch_write_item call) with (Sample.batch_write_item call).
    destruct (Sample.batch_write_item call t) as [[[]|e] t1] eqn:Hcall; [|done].
    intros Hrest.
    apply sample_call_ok in Hcall as [kvs1 Hcall].
    apply IH in Hrest as [kvs2 Hrest].
    exists (kvs1 ++ kvs2). intros t0.
    by rewrite Hcall, Hrest, foldl_app.
Qed.

(** X12. On the sample store, a redelivery is idempotent: when the
    invocation on a batch returns, the invocation on the same batch again
    returns the same response and leaves the table as it is. *)
Theorem redelivery_is_idempotent (event : Consumer.kafka_event)
    (t t' : Consumer.table) (r : response) :
  Sample.consume event t = (Ok r, t') →
  Sample.consume event t' = (Ok r, t').
Proof.
  unfold Sample.consume. destruct event as [[parts|]].
  - rewrite !lambda_handler_records, !batch_write_chunks.
    destruct (write_chunks (chunks [] (enriched parts)) t)
      as [[[]|e] t1] eqn:Hrun; cbn [fst snd is_ok].
    + pose proof Hrun as [kvs Hcalls]%sample_calls_ok.
      rewrite Hcalls in Hrun. injection Hrun as <-.
      case_bool_decide as Hcount; [done|]. intros [= <- <-].
      rewrite (Hcalls (foldl Sample.put t kvs)). cbn [fst snd is_ok].
      rewrite sample_puts_twice.
      by rewrite bool_decide_eq_false_2 by (intros Hne; by apply Hne).
    + case_bool_decide as Hcount; [done|]. intros [= <- <-].
      pose proof (enriched_length_le (H := Sample.runtime) parts) as Hle.
      destruct (enriched parts); [done|]. simpl in Hle. lia.
  - by intros [= <- <-].
Qed.

Lemma redelivery_is_idempotent_witness :
  let t' := (Sample.consume Sample.SAMPLE_KAFKA_EVENT ∅).2 in
  Sample.consume Sample.SAMPLE_KAFKA_EVENT t'
  = (Ok {| statusCode := 200;
           body := JObj {[ "message" :=
                     JStr "2 records processed successfully" ]} |}, t').
Proof.
  apply (redelivery_is_idempotent Sample.SAMPLE_KAFKA_EVENT ∅).
  rewrite (surjective_pairing (Sample.consume Sample.SAMPLE_KAFKA_EVENT ∅)).
  f_equal.
Defined.

(** The sample store takes a call only if every item has its key. *)
Lemma sample_call_ok_keys (items : list pydict) (t t' : Consumer.table)
    (item : pydict) :
  Sample.batch_write_item items t = (Ok (), t') →
  item ∈ items → is_Some (Sample.item_key item).
Proof.
  unfold Sample.batch_write_item.
  destruct (mapM Sample.item_key items) as [keys|] eqn:Hkeys; [|done].
  intros _ Hin. apply mapM_Some in Hkeys.
  apply list_elem_of_lookup in Hin as [i Hi].
  destruct (Forall2_lookup_l _ _ _ _ _ Hkeys Hi) as (k & _ & Hk). eauto.
Qed.

Lemma sample_calls_ok_keys (calls : list (list pydict)) (t t' : Consumer.table)
    (item : pydict) :
  write_chunks (H := Sample.dynamodb) calls t = (Ok (), t') →
  item ∈ concat calls → is_Some (Sample.item_key item).
Proof.
  revert t. induction calls as [|call calls IH]; intros t; simpl.
  - intros _ Hin. by apply elem_of_nil in Hin.
  - unfold bind.
    change (Consumer.batch_write_item call) with (Sample.batch_write_item call).
    destruct (Sample.batch_write_item call t) as [[[]|e] t1] eqn:Hcall; [|done].
    intros Hrest [Hin|Hin]%elem_of_app.
    + by eapply sample_call_ok_keys.
    + by eapply IH.
Qed.

(** X13. A record whose event has neither [timestamp] nor
    [event_timestamp] is enriched without the sort key of the table. On the
    sample store, which refuses an item without its key, every invocation
    whose batch carries such a record raises, on every delivery. *)
Theorem record_without_timestamp_blocks_batch
    (parts : list (string * list pydict)) (pk : string) (recs : list pydict)
    (record event : pydict) (t : Consumer.table) :
  (pk, recs) ∈ parts →
  record ∈ recs →
  decoded (H := Sample.runtime) record = Some (JObj event) →
  event !! "timestamp" = None →
  event !! "event_timestamp" = None →
  Sample.item_key (Sample.enrich event) = None
  ∧ is_ok (Sample.consume {| Consumer.records := Some parts |} t).1 = false.
Proof.
  intros Hpart Hrec Hdecoded Hts Hets.
  assert (Sample.item_key (Sample.enrich event) = None) as Hkey.
  { unfold Sample.item_key, Sample.enrich.
    rewrite enrich_event_timestamp, backfilled_event_timestamp, Hets, Hts.
    by destruct (Consumer.enrich (H := Sample.runtime) event !! "match_id")
      as [[]|]. }
  split; [done|].
  assert (Sample.process_record record = Some (Sample.enrich event))
    as Hitem.
  { apply (process_record_Some (H := Sample.runtime)).
    unfold decoded in Hdecoded.
    destruct (record !! "value") as [value|]; [|done]. eauto. }
  pose proof (elem_of_enriched (H := Sample.runtime) _ _ _ _ _
                Hpart Hrec Hitem) as Hin.
  pose proof (enriched_length_le (H := Sample.runtime) parts) as Hle.
  unfold Sample.consume.
  rewrite lambda_handler_records, batch_write_chunks.
  destruct (write_chunks (chunks [] (enriched parts)) t) as [[[]|e] t1] eqn:Hrun;
    cbn [fst snd is_ok].
  - destruct (sample_calls_ok_keys _ _ _ (Sample.enrich event) Hrun)
      as [k Hk]; [rewrite chunks_concat; exact Hin|].
    rewrite Hkey in Hk. discriminate Hk.
  - rewrite bool_decide_eq_true_2; [done|].
    apply list_elem_of_lookup in Hin as [i Hi].
    apply lookup_lt_Some in Hi. lia.
Qed.

Lemma record_without_timestamp_blocks_batch_witness :
  is_ok (Sample.consume
           {| Consumer.records :=
                Some [("football-events-0",
                       [Sample.kafka_record 0 Sample.goal_value;
                        Sample.kafka_record 1
                          "eyJtYXRjaF9pZCI6ICJtMSIsICJldmVudF90eXBlIjogImdvYWwifQ=="])] |}
           ∅).1
  = false.
Proof.
  eapply (record_without_timestamp_blocks_batch _ "football-events-0"
           [Sample.kafka_record 0 Sample.goal_value;
            Sample.kafka_record 1
              "eyJtYXRjaF9pZCI6ICJtMSIsICJldmVudF90eXBlIjogImdvYWwifQ=="]
           (Sample.kafka_record 1
              "eyJtYXRjaF9pZCI6ICJtMSIsICJldmVudF90eXBlIjogImdvYWwifQ==")
           (<["match_id" := JStr "m1"]> {[ "event_type" := JStr "goal" ]})).
  - apply list_elem_of_here.
  - apply list_elem_of_further, list_elem_of_here.
  - vm_compute; reflexivity.
  - reflexivity.
  - reflexivity.
Defined.

(** * More on the producer *)

Section more_provisioner.
Context `{Ingest.KafkaEnv}.
Import Ingest.

(** What a creation request does, case by case. *)
Lemma admin_create_topics_cases name c :
  (∃ e, admin_create_topics name c = (Raise e, c))
  ∨ ((name ∉ topics c)
     ∧ create_fault = None
     ∧ admin_create_topics name c
       = (Ok (), with_topics c (topics c ++ [name]))).
Proof.
  unfold admin_create_topics. destruct create_fault as [e|]; [eauto|].
  case_bool_decide; [eauto|]. by right.
Qed.

(** [ensure_topic_exists] leaves the cluster as it is, or returns having
    added the topic, which the cluster did not have. *)
Lemma ensure_topic_exists_frame bootstrap_servers topic_name c :
  (ensure_topic_exists bootstrap_servers topic_name c).2 = c
  ∨ ((topic_name ∉ topics c)
     ∧ ensure_topic_exists bootstrap_servers topic_name c
       = (Ok (), with_topics c (topics c ++ [topic_name]))).
Proof.
  rewrite ensure_topic_exists_unfold.
  destruct admin_connect_fault; [by left|].
  destruct (list_topics (topics c)) as [listed|e]; [|destruct e; by left].
  case_bool_decide; [|by left].
  destruct (admin_create_topics_cases topic_name c)
    as [[e ->]|(Hnew & _ & ->)]; [destruct e; by left|by right].
Qed.

End more_provisioner.

(** X14. Whatever happens, [ensure_topic_exists] leaves no admin client
    open and publishes nothing, and the topics of the cluster are as before
    or, when it returns, as before with the requested topic, which was not
    there, added at the end: it never adds another topic and never adds a
    topic twice. *)
Theorem ensure_topic_exists_only_adds_the_topic `{Ingest.KafkaEnv}
    (bootstrap_servers : json) (topic_name : string) (c : Ingest.cluster) :
  let outcome := Ingest.ensure_topic_exists bootstrap_servers topic_name c in
  Ingest.open_admin_clients outcome.2 = Ingest.open_admin_clients c
  ∧ Ingest.published outcome.2 = Ingest.published c
  ∧ (Ingest.topics outcome.2 = Ingest.topics c
     ∨ (outcome.1 = Ok ()
        ∧ (topic_name ∉ Ingest.topics c)
        ∧ Ingest.topics outcome.2 = Ingest.topics c ++ [topic_name])).
Proof.
  intros outcome. subst outcome.
  destruct (ensure_topic_exists_frame bootstrap_servers topic_name c)
    as [->|[Hnew ->]]; simpl; [by eauto|].
  split; [done|]. split; [done|]. right. done.
Qed.

(** X15. When [ensure_topic_exists] returns after a listing that shows
    only topics of the cluster, the cluster has the topic. The creation is
    one that raises [TopicAlreadyExistsError] only for a topic that
    exists. *)
Theorem ensure_topic_exists_ensures `{Ingest.KafkaEnv}
    (bootstrap_servers : json) (topic_name : string)
    (c c' : Ingest.cluster) (listed : list string) :
  Ingest.ensure_topic_exists bootstrap_servers topic_name c = (Ok (), c') →
  Ingest.list_topics (Ingest.topics c) = Ok listed →
  (∀ name, name ∈ listed → name ∈ Ingest.topics c) →
  Ingest.create_fault ≠ Some TopicAlreadyExistsError →
  topic_name ∈ Ingest.topics c'.
Proof.
  rewrite ensure_topic_exists_unfold. intros Hrun Hlist Hhonest Hfault.
  destruct Ingest.admin_connect_fault; [done|]. rewrite Hlist in Hrun.
  case_bool_decide as Hlisted.
  - unfold Ingest.admin_create_topics in Hrun.
    destruct Ingest.create_fault as [e|].
    + by destruct e.
    + case_bool_decide as Hexists.
      * by injection Hrun as <-.
      * injection Hrun as <-. simpl. apply elem_of_app. right.
        apply list_elem_of_here.
  - injection Hrun as <-. by apply Hhonest.
Qed.

Lemma ensure_topic_exists_ensures_witness :
  "football-events"
  ∈ Ingest.topics
      (@Ingest.ensure_topic_exists (Sample.kafka Sample.fresh_listing)
         (JStr "b-1.msk:9098") "football-events" (Sample.cluster_with [])).2.
Proof.
  apply (ensure_topic_exists_ensures
           (H := Sample.kafka Sample.fresh_listing)
           (JStr "b-1.msk:9098") "football-events"
           (Sample.cluster_with []) _ []).
  - vm_compute; reflexivity.
  - reflexivity.
  - intros name Hin. by apply elem_of_nil in Hin.
  - discriminate.
Defined.


Section more_producer.
Context `{Runtime} `{Ingest.KafkaEnv}.
Import Ingest.

Lemma get_bootstrap_servers_state c :
  (get_bootstrap_servers c).2 = c.
Proof.
  unfold get_bootstrap_servers, try_except, raise, ret.
  destruct get_bootstrap_brokers as [response|e]; [|done].
  by destruct (negb _).
Qed.

Lemma get_kafka_producer_unfold c :
  get_kafka_producer c =
    match (get_bootstrap_servers c).1 with
    | Raise e => (Raise e, c)
    | Ok bootstrap_servers =>
        match ensure_topic_exists bootstrap_servers MSK_TOPIC c with
        | (Raise e, c1) => (Raise e, c1)
        | (Ok _, c1) =>
            match producer_connect_fault with
            | Some e => (Raise e, c1)
            | None => (Ok (), c1)
            end
        end
    end.
Proof.
  pose proof (get_bootstrap_servers_state c) as Hstate.
  unfold get_kafka_producer, try_except, bind.
  destruct (get_bootstrap_servers c) as [[b|e] c0]; simpl in *; subst c0;
    [|done].
  destruct (ensure_topic_exists b MSK_TOPIC c) as [[[]|e] c1]; [|done].
  by destruct producer_connect_fault.
Qed.

(** Obtaining the producer publishes nothing and leaves no admin client
    open. *)
Lemma get_kafka_producer_frame c :
  published (get_kafka_producer c).2 = published c
  ∧ open_admin_clients (get_kafka_producer c).2 = open_admin_clients c.
Proof.
  rewrite get_kafka_producer_unfold.
  destruct (get_bootstrap_servers c).1 as [b|e]; [|done].
  destruct (ensure_topic_exists_frame b MSK_TOPIC c) as [Hsame|[_ Hnew]].
  - destruct (ensure_topic_exists b MSK_TOPIC c) as [[[]|e] c1];
      simpl in Hsame; subst c1; [|done].
    by destruct producer_connect_fault.
  - rewrite Hnew. by destruct producer_connect_fault.
Qed.

(** [process_event], case by case. *)
Lemma process_event_unfold body c :
  process_event body c =
    if negb (schema_valid body)
    then (Ok (reply 400 {[ "message" := JStr "Invalid event format" ]}), c)
    else
      match body with
      | JObj body =>
          let match_id := dict_get body "match_id" JNull in
          if negb (truthy match_id)
          then (Ok (reply 400 {[ "message" := JStr "match_id is required" ]}), c)
          else
            match get_kafka_producer c with
            | (Raise e, c1) => (Ok (publishing_error e), c1)
            | (Ok _, c1) =>
                match send_and_wait MSK_TOPIC match_id (with_event_id body) c1 with
                | (Ok _, c2) => (Ok (published_answer body), c2)
                | (Raise e, c2) => (Ok (publishing_error e), c2)
                end
            end
      | _ => (Ok (publishing_error AttributeError), c)
      end.
Proof.
  unfold process_event, try_except.
  destruct (negb (schema_valid body)); [done|].
  destruct body as [| | | | | |body]; try done.
  destruct (negb (truthy (dict_get body "match_id" JNull))); [done|].
  unfold bind, with_event_id, published_answer, with_event_id.
  destruct (get_kafka_producer c) as [[[]|e] c1]; [|done].
  by destruct (send_and_wait _ _ _ c1) as [[[]|e] c2].
Qed.

Lemma process_event_returns body c :
  ∃ r, (process_event body c).1 = Ok r
       ∧ (statusCode r = 200 ∨ statusCode r = 400 ∨ statusCode r = 500).
Proof.
  rewrite process_event_unfold.
  destruct (negb (schema_valid body)); [eexists; split; [done|]; simpl; lia|].
  destruct body as [| | | | | |body];
    try (eexists; split; [done|]; simpl; lia).
  simpl. destruct (negb _); [eexists; split; [done|]; simpl; lia|].
  destruct (get_kafka_producer c) as [[[]|e] c1];
    [|eexists; split; [done|]; simpl; lia].
  destruct (send_and_wait _ _ _ c1) as [[[]|e] c2];
    eexists; (split; [done|]); simpl; lia.
Qed.

(** The handler, case by case. *)
Lemma lambda_handler_unfold event c :
  lambda_handler event c =
    match event !! "body" with
    | None => (Ok (reply 400 {[ "message" := JStr "Missing request body" ]}), c)
    | Some raw =>
        match parse_body raw with
        | Ok body => process_event body c
        | Raise e =>
            (Ok (reply 500
                   {[ "message" :=
                        JStr ("Error processing request: " +:+ exn_str e) ]}),
             c)
        end
    end.
Proof.
  unfold lambda_handler, try_except.
  destruct (event !! "body") as [raw|]; [|done].
  destruct (parse_body raw) as [body|e]; [|done].
  destruct (process_event_returns body c) as (r & Hr & _).
  destruct (process_event body c) as [[r'|e] c']; simpl in Hr; [done|done].
Qed.

End more_producer.

(** X16. The producer's handler never raises: every invocation is answered,
    with status 200, 400 or 500. *)
Theorem producer_always_answers `{Runtime} `{Ingest.KafkaEnv}
    (event : pydict) (c : Ingest.cluster) :
  ∃ r c', Ingest.lambda_handler event c = (Ok r, c')
          ∧ (statusCode r = 200 ∨ statusCode r = 400 ∨ statusCode r = 500).
Proof.
  rewrite lambda_handler_unfold.
  destruct (event !! "body") as [raw|];
    [|do 2 eexists; split; [done|]; simpl; lia].
  destruct (Ingest.parse_body raw) as [body|e];
    [|do 2 eexists; split; [done|]; simpl; lia].
  destruct (process_event_returns body c) as (r & Hr & Hstatus).
  destruct (Ingest.process_event body c) as [r' c']. simpl in Hr. subst r'.
  eauto.
Qed.

(** X17. An answer with status 400 is given only to a submission without
    body, with a body that fails the validation, or with a valid body whose
    [match_id] is missing or falsy; the cluster is then as it was: no
    connection was made and nothing was published. *)
Theorem client_error_leaves_cluster `{Runtime} `{Ingest.KafkaEnv}
    (event : pydict) (c c' : Ingest.cluster) (r : response) :
  Ingest.lambda_handler event c = (Ok r, c') →
  statusCode r = 400 →
  c' = c
  ∧ (event !! "body" = None
     ∨ ∃ raw body,
         event !! "body" = Some raw
         ∧ Ingest.parse_body raw = Ok body
         ∧ (Ingest.schema_valid body = false
            ∨ ∃ fields, body = JObj fields
                        ∧ truthy (dict_get fields "match_id" JNull) = false)).
Proof.
  rewrite lambda_handler_unfold.
  destruct (event !! "body") as [raw|]; [|intros [= <- <-] _; by eauto].
  destruct (Ingest.parse_body raw) as [body|e] eqn:Hparse;
    [|by intros [= <- <-] [=]].
  rewrite process_event_unfold.
  destruct (Ingest.schema_valid body) eqn:Hvalid; simpl.
  2:{ intros [= <- <-] _. split; [done|]. right. by eauto 10. }
  destruct body as [| | | | | |fields]; try by intros [= <- <-] [=].
  destruct (truthy (dict_get fields "match_id" JNull)) eqn:Hid; simpl.
  2:{ intros [= <- <-] _. split; [done|]. right. by eauto 10. }
  destruct (Ingest.get_kafka_producer c) as [[[]|e] c1];
    [|by intros [= <- <-] [=]].
  destruct (Ingest.send_and_wait _ _ _ c1) as [[[]|e] c2];
    by intros [= <- <-] [=].
Qed.

Lemma client_error_leaves_cluster_witness :
  (Sample.produce Sample.bodiless_submission (Sample.cluster_with [])).2
  = Sample.cluster_with [].
Proof.
  destruct (Sample.produce Sample.bodiless_submission (Sample.cluster_with []))
    as [[r|e] c'] eqn:Hrun.
  - unfold Sample.produce in Hrun.
    apply (client_error_leaves_cluster (H := Sample.runtime)) in Hrun as [-> _];
      [done|].
    vm_compute in Hrun. by injection Hrun as <- _.
  - vm_compute in Hrun. discriminate Hrun.
Defined.

Section event_id.
Context `{Ingest.KafkaEnv}.

Lemma with_event_id_lookup (body : pydict) :
  with_event_id body !! "event_id"
  = Some (default (JStr Ingest.uuid4) (body !! "event_id")).
Proof.
  unfold with_event_id.
  destruct (body !! "event_id") as [v|] eqn:Hid; simpl.
  - replace (dict_has body "event_id") with true; [done|].
    symmetry. apply dict_has_true. eauto.
  - replace (dict_has body "event_id") with false
      by (symmetry; by apply dict_has_false).
    simpl. apply lookup_insert_eq.
Qed.

Lemma with_event_id_other (body : pydict) (k : string) :
  k ≠ "event_id" → with_event_id body !! k = body !! k.
Proof.
  intros Hk. unfold with_event_id.
  destruct (negb _); [|done]. by rewrite lookup_insert_ne.
Qed.

End event_id.

(** X18. The producer answers 200 exactly when the body parses to an object
    that passes the validation and has a truthy [match_id], the producer is
    obtained and the send is acknowledged. The event is sent to the topic
    under the key [match_id]; it carries the [event_id] of the client, or
    the generated one when the client gave none, and all other fields as
    they came; the answer names the same [event_id]. *)
Theorem published_iff_200 `{Runtime} `{Ingest.KafkaEnv}
    (event : pydict) (c c' : Ingest.cluster) (r : response) :
  (Ingest.lambda_handler event c = (Ok r, c') ∧ statusCode r = 200)
  ↔ ∃ raw fields c1,
      event !! "body" = Some raw
      ∧ Ingest.parse_body raw = Ok (JObj fields)
      ∧ Ingest.schema_valid (JObj fields) = true
      ∧ truthy (dict_get fields "match_id" JNull) = true
      ∧ Ingest.get_kafka_producer c = (Ok (), c1)
      ∧ Ingest.send_and_wait Ingest.MSK_TOPIC
          (dict_get fields "match_id" JNull) (with_event_id fields) c1
        = (Ok (), c')
      ∧ with_event_id fields !! "event_id"
        = Some (default (JStr Ingest.uuid4) (fields !! "event_id"))
      ∧ (∀ k, k ≠ "event_id" → with_event_id fields !! k = fields !! k)
      ∧ r = Ingest.reply 200
              (<["message" := JStr "Event published successfully"]>
                 {[ "event_id" :=
                      default (JStr Ingest.uuid4) (fields !! "event_id") ]}).
Proof.
  rewrite lambda_handler_unfold. split.
  - intros [Hrun Hstatus].
    destruct (event !! "body") as [raw|]; [|by injection Hrun as <- _].
    destruct (Ingest.parse_body raw) as [body|e] eqn:Hparse;
      [|by injection Hrun as <- _].
    rewrite process_event_unfold in Hrun.
    destruct (Ingest.schema_valid body) eqn:Hvalid; simpl in Hrun;
      [|by injection Hrun as <- _].
    destruct body as [| | | | | |fields]; try by injection Hrun as <- _.
    destruct (truthy (dict_get fields "match_id" JNull)) eqn:Hid;
      simpl in Hrun; [|by injection Hrun as <- _].
    destruct (Ingest.get_kafka_producer c) as [[[]|e] c1];
      [|by injection Hrun as <- _].
    destruct (Ingest.send_and_wait _ _ _ c1) as [[[]|e] c2] eqn:Hsend;
      [|by injection Hrun as <- _].
    injection Hrun as <- <-.
    exists raw, fields, c1. repeat (split; [done|]).
    split; [apply with_event_id_lookup|].
    split; [intros k; apply with_event_id_other|].
    unfold published_answer, dict_get. by rewrite with_event_id_lookup.
  - intros (raw & fields & c1 & -> & -> & Hvalid & Hid & Hproducer & Hsend
            & _ & _ & ->).
    rewrite process_event_unfold, Hvalid. simpl.
    rewrite Hid, Hproducer. simpl. rewrite Hsend. split; [|done].
    unfold published_answer, dict_get. by rewrite with_event_id_lookup.
Qed.

Lemma published_iff_200_witness :
  Sample.produce Sample.goal_submission (Sample.cluster_with [])
  = (Ok (Ingest.reply 200
           (<["message" := JStr "Event published successfully"]>
              {[ "event_id" := JStr "123e4567-e89b-42d3-a456-426614174000" ]})),
     {| Ingest.topics := ["football-events"];
        Ingest.published :=
          [("football-events", JStr "match-123",
            <["event_id" := JStr "123e4567-e89b-42d3-a456-426614174000"]>
              Sample.goal_event)];
        Ingest.open_admin_clients := 0 |}).
Proof.
  apply (published_iff_200 (H := Sample.runtime)
           (H0 := Sample.kafka Sample.fresh_listing)).
  exists (JStr (default EmptyString (Sample.b64decode Sample.goal_value))),
    Sample.goal_event, (Sample.cluster_with ["football-events"]).
  repeat split; try (vm_compute; reflexivity).
  intros k Hk. by apply with_event_id_other.
Defined.

(** X19. When the producer cannot be obtained for a valid submission (the
    brokers are not told, the admin connection, the listing or the creation
    of the topic fails, or the producer does not connect), the answer is
    500 with the text of the error, and nothing is published. *)
Theorem producer_failure_is_500 `{Runtime} `{Ingest.KafkaEnv}
    (event : pydict) (raw : json) (fields : pydict)
    (c c1 : Ingest.cluster) (e : exn) :
  event !! "body" = Some raw →
  Ingest.parse_body raw = Ok (JObj fields) →
  Ingest.schema_valid (JObj fields) = true →
  truthy (dict_get fields "match_id" JNull) = true →
  Ingest.get_kafka_producer c = (Raise e, c1) →
  Ingest.lambda_handler event c
  = (Ok (Ingest.reply 500
           {[ "message" :=
                JStr ("Error publishing event: " +:+ exn_str e) ]}), c1)
  ∧ Ingest.published c1 = Ingest.published c
  ∧ Ingest.open_admin_clients c1 = Ingest.open_admin_clients c.
Proof.
  intros Hbody Hparse Hvalid Hid Hproducer.
  pose proof (get_kafka_producer_frame c) as Hframe.
  rewrite Hproducer in Hframe. split; [|done].
  rewrite lambda_handler_unfold, Hbody, Hparse, process_event_unfold, Hvalid.
  simpl. by rewrite Hid, Hproducer.
Qed.

Lemma producer_failure_is_500_witness :
  statusCode
    <$> (match (@Ingest.lambda_handler Sample.runtime Sample.kafka_unreachable
                  Sample.goal_submission (Sample.cluster_with [])).1 with
         | Ok r => Some r
         | Raise _ => None
         end)
  = Some 500.
Proof.
  destruct (producer_failure_is_500 (H := Sample.runtime)
              (H0 := Sample.kafka_unreachable)
              Sample.goal_submission
              (JStr (default EmptyString (Sample.b64decode Sample.goal_value)))
              Sample.goal_event (Sample.cluster_with [])
              (Sample.cluster_with [])
              (ClientError "Could not connect to the endpoint URL"))
    as [-> _]; vm_compute; reflexivity.
Defined.

(** * What an acknowledged batch leaves in the sample store *)

(** The puts of a call that the sample store takes: each item under its
    own key. *)
Lemma sample_call_ok_puts (items : list pydict) (t t' : Consumer.table) :
  Sample.batch_write_item items t = (Ok (), t') →
  ∃ kvs, kvs.*2 = items
         ∧ Forall (λ kv, Sample.item_key kv.2 = Some kv.1) kvs
         ∧ t' = foldl Sample.put t kvs.
Proof.
  unfold Sample.batch_write_item.
  destruct (mapM Sample.item_key items) as [keys|] eqn:Hkeys; [|done].
  case_bool_decide; [|done]. intros [= <-].
  apply mapM_Some in Hkeys. exists (zip keys items).
  split; [apply snd_zip; by rewrite (Forall2_length _ _ _ Hkeys)|].
  split; [|done].
  clear -Hkeys. induction Hkeys; simpl; constructor; done.
Qed.

Lemma sample_calls_ok_puts (calls : list (list pydict)) (t t' : Consumer.table) :
  write_chunks (H := Sample.dynamodb) calls t = (Ok (), t') →
  ∃ kvs, kvs.*2 = concat calls
         ∧ Forall (λ kv, Sample.item_key kv.2 = Some kv.1) kvs
         ∧ t' = foldl Sample.put t kvs.
Proof.
  revert t. induction calls as [|call calls IH]; intros t; simpl.
  - intros [= <-]. by exists [].
  - unfold bind.
    change (Consumer.batch_write_item call) with (Sample.batch_write_item call).
    destruct (Sample.batch_write_item call t) as [[[]|e] t1] eqn:Hcall; [|done].
    intros Hrest.
    apply sample_call_ok_puts in Hcall as (kvs1 & Hitems1 & Hkeys1 & ->).
    apply IH in Hrest as (kvs2 & Hitems2 & Hkeys2 & ->).
    exists (kvs1 ++ kvs2).
    split; [by rewrite fmap_app, Hitems1, Hitems2|].
    split; [by apply Forall_app|]. by rewrite foldl_app.
Qed.

(** After the puts, a key that was put holds an item that was put under
    it, and every other key holds what it held. *)
Lemma sample_puts_lookup (kvs : list ((string * string) * pydict))
    (t : Consumer.table) (k : string * string) :
  ((k ∈ kvs.*1) ∧ ∃ v, foldl Sample.put t kvs !! k = Some v ∧ (k, v) ∈ kvs)
  ∨ ((k ∉ kvs.*1) ∧ foldl Sample.put t kvs !! k = t !! k).
Proof.
  rewrite sample_puts.
  destruct (list_to_map (M := Consumer.table) (reverse kvs) !! k)
    as [v|] eqn:Hlook.
  - left. pose proof Hlook as Hin%elem_of_list_to_map_2.
    rewrite elem_of_reverse in Hin. split.
    + apply list_elem_of_fmap. by exists (k, v).
    + exists v. split; [|done]. by apply lookup_union_Some_l.
  - right. apply not_elem_of_list_to_map in Hlook.
    rewrite fmap_reverse, elem_of_reverse in Hlook. split; [done|].
    apply lookup_union_r. apply not_elem_of_list_to_map.
    by rewrite fmap_reverse, elem_of_reverse.
Qed.

Lemma omap_length_all {A B} (f : A → option B) (l : list A) (x : A) :
  length (omap f l) = length l → x ∈ l → is_Some (f x).
Proof.
  intros Hlen Hin. destruct (f x) as [y|] eqn:Hx; [eauto|].
  pose proof (omap_length_lt f l x Hin Hx). lia.
Qed.

(** X20. On the sample store, an acknowledgment means that the batch is
    stored: when the invocation returns, every record of the batch was
    enriched, the table holds under the key of each enriched item an item of
    the batch with that key, and every key that no item of the batch has
    holds what it held before. *)
Theorem acknowledged_batch_is_stored (parts : list (string * list pydict))
    (t t' : Consumer.table) (r : response) :
  Sample.consume {| Consumer.records := Some parts |} t = (Ok r, t') →
  (∀ pk recs record,
     (pk, recs) ∈ parts → record ∈ recs →
     ∃ item k stored,
       Sample.process_record record = Some item
       ∧ Sample.item_key item = Some k
       ∧ t' !! k = Some stored
       ∧ Sample.item_key stored = Some k
       ∧ stored ∈ enriched (H := Sample.runtime) parts)
  ∧ (∀ k, (∀ item, item ∈ enriched (H := Sample.runtime) parts →
                   Sample.item_key item ≠ Some k) →
          t' !! k = t !! k).
Proof.
  unfold Sample.consume.
  rewrite lambda_handler_records, batch_write_chunks.
  pose proof (enriched_length_le (H := Sample.runtime) parts) as Hle.
  destruct (write_chunks (chunks [] (enriched parts)) t) as [[[]|e] t1] eqn:Hrun;
    cbn [fst snd is_ok]; case_bool_decide as Hcount; try done;
    intros [= <- <-].
  - apply sample_calls_ok_puts in Hrun as (kvs & Hitems & Hkeys & ->).
    rewrite chunks_concat in Hitems. simpl in Hitems.
    rewrite Forall_forall in Hkeys.
    split.
    + intros pk recs record Hpart Hrec.
      assert (record ∈ concat parts.*2) as Hin.
      { apply list_elem_of_In, in_concat. exists recs.
        split; [|by apply list_elem_of_In].
        apply list_elem_of_In, list_elem_of_fmap. by exists (pk, recs). }
      rewrite records_received_length in Hcount.
      destruct (omap_length_all _ _ record Hcount Hin) as [item Hitem].
      pose proof (elem_of_enriched (H := Sample.runtime) _ _ _ _ _
                    Hpart Hrec Hitem) as Hen.
      rewrite <- Hitems in Hen.
      apply list_elem_of_fmap in Hen as ([k item'] & -> & Hkv).
      pose proof (Hkeys _ Hkv) as Hk. simpl in Hk.
      exists item', k.
      destruct (sample_puts_lookup kvs t k)
        as [[_ (stored & Hlook & Hstored)]|[Hnot _]].
      * exists stored. split; [done|]. split; [done|]. split; [done|].
        split; [apply (Hkeys _ Hstored)|].
        rewrite <- Hitems. apply list_elem_of_fmap. by exists (k, stored).
      * destruct Hnot. apply list_elem_of_fmap. by exists (k, item').
    + intros k Hfree.
      destruct (sample_puts_lookup kvs t k)
        as [[Hin _]|[_ Hsame]]; [|done].
      apply list_elem_of_fmap in Hin as ([k' item] & -> & Hkv).
      destruct (Hfree item).
      * rewrite <- Hitems. apply list_elem_of_fmap. by exists (k', item).
      * apply (Hkeys _ Hkv).
  - assert (enriched (H := Sample.runtime) parts = []) as Hnone.
    { destruct (enriched parts); [done|]. simpl in Hrun.
      rewrite <- Hcount in Hle. simpl in Hle. lia. }
    rewrite Hnone in Hrun. simpl in Hrun. done.
Qed.

Lemma acknowledged_batch_is_stored_witness :
  ∃ item k stored,
    Sample.process_record (Sample.kafka_record 0 Sample.goal_value) = Some item
    ∧ Sample.item_key item = Some k
    ∧ (Sample.consume Sample.SAMPLE_KAFKA_EVENT ∅).2 !! k = Some stored.
Proof.
  assert ((Sample.consume Sample.SAMPLE_KAFKA_EVENT ∅).1
          = Ok {| statusCode := 200;
                  body := JObj {[ "message" :=
                            JStr "2 records processed successfully" ]} |})
    as Hanswer by (vm_compute; reflexivity).
  destruct (Sample.consume Sample.SAMPLE_KAFKA_EVENT ∅) as [answer t']
    eqn:Hrun.
  cbn [fst snd] in *. subst answer.
  destruct (acknowledged_batch_is_stored _ ∅ t' _ Hrun) as [Hstored _].
  destruct (Hstored "football-events-0" _
              (Sample.kafka_record 0 Sample.goal_value)
              (list_elem_of_here _ _) (list_elem_of_here _ _))
    as (item & k & stored & Hitem & Hk & Hlook & _).
  exists item, k, stored. split; [exact Hitem|]. split; [exact Hk|exact Hlook].
Defined.

(** * The queries and the composite key *)

Lemma prefix_nil_l (s : string) : String.prefix EmptyString s = true.
Proof. by destruct s. Qed.

Lemma prefix_cons (a b : ascii) (p s : string) :
  String.prefix (String a p) (String b s) = true
  ↔ a = b ∧ String.prefix p s = true.
Proof.
  simpl. destruct (ascii_dec a b) as [->|Hne].
  - split; [by intros ->|by intros [_ ->]].
  - split; [done|]. by intros [? _].
Qed.

(** A composite key begins with a type and [#] exactly when its type is
    that type or itself begins with the type and [#]. *)
Lemma prefix_composite (p ty rest : string) :
  has_hash p = false →
  String.prefix (p +:+ "#") (ty +:+ "#" +:+ rest) = true
  ↔ ty = p ∨ String.prefix (p +:+ "#") ty = true.
Proof.
  revert ty. induction p as [|a p IH]; intros ty Hp.
  - destruct ty as [|c ty].
    + split; [by left|]. intros _. apply prefix_cons. split; [done|].
      apply prefix_nil_l.
    + change (String.prefix (String "#" EmptyString)
                (String c (ty +:+ "#" +:+ rest)) = true
              ↔ String c ty = EmptyString
                ∨ String.prefix (String "#" EmptyString) (String c ty) = true).
      rewrite !prefix_cons, !prefix_nil_l. split.
      * intros [-> _]. by right.
      * by intros [[=]|[-> _]].
  - simpl in Hp. apply orb_false_elim in Hp as [Ha Hp].
    apply Ascii.eqb_neq in Ha.
    destruct ty as [|c ty].
    + change (String.prefix (String a (p +:+ "#"))
                (String "#" rest) = true
              ↔ EmptyString = String a p
                ∨ String.prefix (String a (p +:+ "#")) EmptyString = true).
      rewrite prefix_cons. split.
      * by intros [-> _].
      * by intros [[=]|[=]].
    + change (String.prefix (String a (p +:+ "#"))
                (String c (ty +:+ "#" +:+ rest)) = true
              ↔ String c ty = String a p
                ∨ String.prefix (String a (p +:+ "#")) (String c ty) = true).
      rewrite !prefix_cons, (IH ty Hp). split.
      * intros [-> [->|Hpre]]; [by left|by right].
      * intros [[= -> ->]|[-> Hpre]]; (split; [done|]); [by left|by right].
Qed.

(** X21. The queries of [get_match_goals] and [get_match_passes] select by
    the prefix [goal#] and [pass#] of the composite key. An item that the
    consumer enriched meets such a condition exactly when its [match_id] is
    the one asked for and the text of its [event_type] ([unknown] when
    absent) is the type, or itself begins with the type and [#]. *)
Theorem typed_query_selects `{Runtime} (event : pydict)
    (match_id type : string) :
  has_hash type = false →
  satisfies (Query.typed_condition match_id (type +:+ "#"))
    (Consumer.enrich event)
  ↔ event !! "match_id" = Some (JStr match_id)
    ∧ (format_value (dict_get event "event_type" (JStr "unknown")) = type
       ∨ String.prefix (type +:+ "#")
           (format_value (dict_get event "event_type" (JStr "unknown")))
         = true).
Proof.
  intros Htype. unfold satisfies. simpl.
  rewrite (enrich_lookup event "match_id") by done.
  rewrite enrich_unfold, lookup_insert_eq.
  rewrite <- (prefix_composite type _
                (format_value
                   (dict_get (backfilled event) "event_timestamp"
                      (JStr EmptyString))) Htype).
  split.
  - intros [Hid (s & [= <-] & Hprefix)]. done.
  - intros [Hid Hprefix]. split; [done|]. eauto.
Qed.

Lemma typed_query_selects_witness :
  satisfies (Query.typed_condition "match-123" "goal#")
    (Sample.enrich Sample.goal_event).
Proof.
  apply (typed_query_selects (H := Sample.runtime) Sample.goal_event
           "match-123" "goal" eq_refl).
  split; [reflexivity|]. left. reflexivity.
Defined.
